(** * SVG-to-page conversion: a shallow embedding of the drawing core

    The embedded program is the SVG support of pdf-lib: the clipper
    [getInnerSegment], the path rewriter [handlePath], the transform composer
    [transform], the attribute resolver [parseAttributes], the aspect-ratio
    fitting [getFittingRectangle] and the draw dispatcher [runnersToPage].

    JavaScript numbers are IEEE 754 binary64 values, so they are embedded as
    Rocq's primitive floats: [NaN], signed zeros and infinities behave as in
    the source.  What the source imports from outside (the geometry helpers
    of [src/utils], the [Math] library, number formatting and parsing, regular
    expressions) is an interface the development is parametric in. *)

From Stdlib Require Import PrimFloat SpecFloat FloatOps Ascii String ZArith.
From Stdlib Require Uint63.
From stdpp Require Import base option list strings pretty gmap.

Local Open Scope string_scope.
Local Open Scope list_scope.
Local Open Scope float_scope.

(** ** JavaScript numbers *)

Module JS.

(** [undefined] is [None]; [ToNumber(undefined)] is [NaN]. *)
Definition toNumber (v : option float) : float := default nan v.

(** Truthiness of a number: everything but [+0], [-0] and [NaN]. *)
Definition truthy (v : float) : bool := negb (is_zero v || is_nan v).

(** Truthiness of a string: everything but the empty string. *)
Definition truthyStr (s : string) : bool := negb (String.eqb s "").

(** [a || b] on optional numbers. *)
Definition or_num (a : option float) (b : float) : float :=
  match a with
  | Some v => if truthy v then v else b
  | None => b
  end.

(** [a ?? b]. *)
Definition nullish {A} (a b : option A) : option A :=
  match a with Some _ => a | None => b end.

Definition is_neg_zero (v : float) : bool := is_zero v && get_sign v.

(** [Math.abs]. *)
Definition Math_abs (v : float) : float := abs v.

(** [Math.min]: [NaN] if either argument is, and [-0] is below [+0]. *)
Definition Math_min (a b : float) : float :=
  if is_nan a || is_nan b then nan
  else if a <? b then a
  else if b <? a then b
  else if is_neg_zero a then a else b.

(** [Math.max]: [NaN] if either argument is, and [+0] is above [-0]. *)
Definition Math_max (a b : float) : float :=
  if is_nan a || is_nan b then nan
  else if a <? b then b
  else if b <? a then a
  else if is_neg_zero a then b else a.

(** [Array.prototype.sort(comparefn)]: the sort is stable and orders [a]
    after [b] exactly when [comparefn(a, b) > 0] (a [NaN] result counts as
    [+0]); written as an insertion sort. *)
Section Sort.
Context {A : Type} (comparefn : A → A → float).

Fixpoint insert_sorted (a : A) (l : list A) : list A :=
  match l with
  | [] => [a]
  | b :: l' =>
      if 0 <? comparefn a b then b :: insert_sorted a l' else a :: l
  end.

Definition sort (l : list A) : list A := foldr insert_sorted [] l.
End Sort.

(** [object[key]] on an object literal finds the properties the literal
    gives it and, for any other key, what every object inherits from
    [Object.prototype]: seven methods, the four accessor helpers and
    [__proto__]. *)
Definition Object_prototype : list string :=
  ["constructor"; "hasOwnProperty"; "isPrototypeOf"; "propertyIsEnumerable";
   "toLocaleString"; "toString"; "valueOf";
   "__defineGetter__"; "__defineSetter__"; "__lookupGetter__"; "__lookupSetter__";
   "__proto__"].

Inductive Property (V : Type) :=
| Own (v : V)
| Inherited (key : string).
Arguments Own {V} v.
Arguments Inherited {V} key.

Definition get {V} (literal : string → option V) (key : string)
  : option (Property V) :=
  match literal key with
  | Some v => Some (Own v)
  | None =>
      if bool_decide (key ∈ Object_prototype) then Some (Inherited key) else None
  end.

(** [object[key](element)] for an inherited key, with an object as the only
    argument: [__proto__] is the prototype, which is no function, and
    [__defineGetter__] and [__defineSetter__] refuse the function that is
    missing; each is a [TypeError].  The other members return, and leave the
    object and the argument as they are. *)
Definition inherited_call_throws (key : string) : bool :=
  bool_decide (key ∈ ["__defineGetter__"; "__defineSetter__"; "__proto__"]).

(** [text.length] counts UTF-16 code units.  The texts of the model are
    byte strings in UTF-8, where a byte of the form [10xxxxxx] continues a
    character, [11110xxx] starts a character outside the basic plane (two
    code units), and any other byte starts a character of one code unit. *)
Definition code_units (c : ascii) : nat :=
  let byte := nat_of_ascii c in
  if (byte <? 128)%nat then 1%nat
  else if (byte <? 192)%nat then 0%nat
  else if (byte <? 240)%nat then 1%nat
  else 2%nat.

Fixpoint length (text : string) : nat :=
  match text with
  | EmptyString => 0%nat
  | String c rest => (code_units c + length rest)%nat
  end.

End JS.

(** ** Geometry values ([src/utils/elements]) *)

Record Position := mkPosition { x : float; y : float }.

(** A [Point] carries its coordinates; [new Point(c)] copies them. *)
Definition Point := Position.
Definition new_Point (c : Position) : Point := {| x := x c; y := y c |}.
Definition toCoords (p : Point) : Position := {| x := x p; y := y p |}.

Record Segment := new_Segment { A : Point; B : Point }.

(** [new Rectangle(start, end)], as [drawSvg] builds the target rectangle. *)
Record Rectangle := new_Rectangle { start : Point; end_ : Point }.

Record Size := mkSize { width : float; height : float }.

Record Box := mkBox
  { box_x : float; box_y : float; box_width : float; box_height : float }.

(** The helpers imported from [src/utils/maths], [src/utils/intersections]
    and the methods of [src/utils/elements] that the clipper calls. *)
Class Geometry := {
  isEqual : float → float → bool;
  distance : Point → Point → float;
  distanceCoords : Point → Point → float;
  orthoProjection : Rectangle → Point → Point;
  getIntersections : Rectangle → Segment → list Point;
  Point_isEqual : Point → Point → bool;
}.

(** ** The clipper *)

Section Clipper.
Context `{Geometry}.

Definition isCoordinateInsideTheRect (dot : Point) (rect : Rectangle) : bool :=
  isEqual 0 (distance dot (orthoProjection rect dot)).

(** [intersection.sort(cmp)[0]] wrapped in [new Point]; the array is known
    to be non-empty where this is used. *)
Definition nearestPoint (from : Point) (sorted : list Point) : Point :=
  default from (new_Point <$> head sorted).

(** The two [sort] calls act on the same array: the second one sees the
    order the first one left. *)
Definition getInnerSegment (start end_ : Point) (rect : Rectangle)
  : option Segment :=
  let isStartInside := isCoordinateInsideTheRect start rect in
  let isEndInside := isCoordinateInsideTheRect end_ rect in
  if isEndInside && isStartInside then Some (new_Segment start end_)
  else
    let line := new_Segment start end_ in
    let intersection := getIntersections rect line in
    if Nat.eqb (length intersection) 0 then None
    else
      let intersection1 :=
        if negb isStartInside
        then JS.sort (λ p1 p2, distanceCoords start p1 - distanceCoords start p2)
               intersection
        else intersection in
      let resultLineStart :=
        if negb isStartInside then nearestPoint start intersection1 else start in
      let intersection2 :=
        if negb isEndInside
        then JS.sort (λ p1 p2, distanceCoords end_ p1 - distanceCoords end_ p2)
               intersection1
        else intersection1 in
      let resultLineEnd :=
        if negb isEndInside then nearestPoint end_ intersection2 else end_ in
      Some (new_Segment resultLineStart resultLineEnd).

End Clipper.

(** ** Coordinate converters *)

Record SVGSizeConverter := mkConverter {
  point : float → float → Position;
  size : float → float → Size;
}.

(** ** The runtime the source runs on

    [Math], [degreesToRadians] of [./rotations], number formatting and
    parsing, [colorString] of [./colors], and the regular expressions of the
    source, each named after the place that uses it. *)

Record Color := rgb { red : float; green : float; blue : float }.

(** The enumerations of [./operators]. *)
Module LineCapStyle.
Inductive t := Butt | Round | Projecting.
End LineCapStyle.

Module LineJoinStyle.
Inductive t := Miter | Round | Bevel.
End LineJoinStyle.

Class Runtime := {
  Math_cos : float → float;
  Math_sin : float → float;
  Math_tan : float → float;
  degreesToRadians : float → float;
  (** a number in a template literal, in [n + ''] and in [join] *)
  numberToString : float → string;
  parseFloat : string → float;
  (** [parseInt(d, 10)] *)
  parseInt10 : string → float;
  toLowerCase : string → string;
  trim : string → string;
  (** [colorString(color)]: the colour and its alpha, if any *)
  colorString : string → Color * option float;
  (** [parseStyles]: every match of [cssRegex], as groups 1 and 2 *)
  cssRegex : string → list (option string * string);
  (** [parseAttributes]: the first number in an attribute, the
      [match(...)?.[0]] of the [rotate], [skewX], [skewY] and [scale] cases *)
  firstNumber : string → option string;
  (** [parseAttributes]: every number among the parameters of an arc *)
  allNumbers : string → list string;
  (** [parseAttributes]: every match of [regexTransform], as groups 1 and 2 *)
  regexTransform : string → list (string * string);
  (** [parseAttributes]: [rawArgs.split] on commas and white space *)
  splitArgs : string → list string;
  (** [parseAttributes]: [d.replace] over each [v], [V], [h], [H] command *)
  replaceVH : string → (string → string) → string;
  (** [parseAttributes]: [d.replace] over each [a], [A] command *)
  replaceArc : string → (string → string) → string;
  (** [parseAttributes]: [d.replace] over each command [l], [t], [m], [q],
      [c] (either case) followed by coordinate pairs *)
  replaceCoords : string → (string → string) → string;
  (** [parseAttributes]: every coordinate pair [matchAll] finds, as its two
      numbers (groups 1 and 4) *)
  coordPairs : string → list (string * string);
  (** [parseAttributes]: the quoted start of a font family; [inner[1] ||
      inner[2]] when the expression matches *)
  fontFamilyInner : string → option (option string);
  (** [path]: the commands [d.match] splits the path data into *)
  pathCommands : string → option (list string);
  (** [path]: the first letter of a command, [command.match(...)?.[0]] *)
  firstLetter : string → option string;
  (** [path]: the runs of number characters of a command, empty runs
      included *)
  numberRuns : string → option (list string);
  (** the truth of an enumeration value: its members are numbers, and the one
      that is 0 is falsy *)
  LineCapStyle_truthy : LineCapStyle.t → bool;
  LineJoinStyle_truthy : LineJoinStyle.t → bool;
}.

(** ** [console.log] as a writer *)

Definition Console (T : Type) : Type := list string * T.

Definition ret {T} (v : T) : Console T := ([], v).

Definition bind {T U} (c : Console T) (k : T → Console U) : Console U :=
  let '(out1, v) := c in
  let '(out2, r) := k v in
  (out1 ++ out2, r).

Definition console_log (line : string) : Console unit := ([line], tt).

Notation "'let*' v ':=' c 'in' k" := (bind c (λ v, k))
  (at level 10, v name, c at level 100, k at level 200).

(** ** The transform composer *)

Section Transform.
Context `{Runtime}.

(** [args[i]] used as a number. *)
Definition arg (args : list float) (i : nat) : float := JS.toNumber (args !! i).

(** [case 'scale'] *)
Definition scale (converter : SVGSizeConverter) (args : list float)
  : SVGSizeConverter :=
  let xScale := arg args 0 in
  let yScale := default xScale (args !! 1%nat) in
  {| point := λ x y, point converter (x * xScale) (y * yScale);
     size := λ w h, size converter (w * xScale) (h * yScale) |}.

(** [case 'translate'] *)
Definition translate (converter : SVGSizeConverter) (args : list float)
  : SVGSizeConverter :=
  let dx := arg args 0 in
  let dy := default dx (args !! 1%nat) in
  {| point := λ x y, point converter (x + dx) (y + dy);
     size := size converter |}.

(** [case 'rotate'], the branch without a centre *)
Definition rotate (converter : SVGSizeConverter) (args : list float)
  : SVGSizeConverter :=
  let a := arg args 0 in
  let angle := degreesToRadians a in
  {| point := λ x y,
       point converter
         (x * Math_cos angle - y * Math_sin angle)
         (y * Math_cos angle + x * Math_sin angle);
     size := λ w h,
       size converter
         (w * Math_cos angle - h * Math_sin angle)
         (h * Math_cos angle + w * Math_sin angle) |}.

(** The source calls itself for the shorthands and for a rotation about a
    centre; each of those calls lands in one of the three cases above, which
    is what the calls are written as here.  [transform_scale],
    [transform_translate] and [transform_rotate] below give the source's
    equations back.  In [[0, args[0]]] a missing [args[0]] is an element
    that is [undefined], for which the default of the second binding steps
    in as it does for a missing element: the list then ends after the 0.
    In [[args[0], 0]] it is the first binding that is [undefined], a [NaN]
    in the arithmetic. *)
Definition transform (converter : SVGSizeConverter) (name : string)
    (args : list float) : Console SVGSizeConverter :=
  if String.eqb name "scaleX" then ret (scale converter [arg args 0; 0])
  else if String.eqb name "scaleY" then
    ret (scale converter (0 :: option_list (args !! 0%nat)))
  else if String.eqb name "scale" then ret (scale converter args)
  else if String.eqb name "translateX" then
    ret (translate converter [arg args 0; 0])
  else if String.eqb name "translateY" then
    ret (translate converter (0 :: option_list (args !! 0%nat)))
  else if String.eqb name "translate" then ret (translate converter args)
  else if String.eqb name "rotate" then
    if Nat.ltb 1 (length args) then
      let a := arg args 0 in
      let x := arg args 1 in
      let y := default x (args !! 2%nat) in
      let tempResult := translate converter [- x; - y] in
      let tempResult := rotate tempResult [a] in
      ret (translate tempResult [x; y])
    else ret (rotate converter args)
  else if String.eqb name "skewX" then
    let angle := degreesToRadians (arg args 0) in
    ret {| point := λ x y, point converter ((1 + x) * Math_tan angle) y;
           size := size converter |}
  else if String.eqb name "skewY" then
    let angle := degreesToRadians (arg args 0) in
    ret {| point := λ x y, point converter x ((1 + y) * Math_tan angle);
           size := size converter |}
  else
    let* _ := console_log ("transformation unsupported: " +:+ name) in
    ret converter.

End Transform.

(** ** Aspect-ratio fitting and the [viewBox] converter *)

Definition getFittingRectangle
    (originalWidth originalHeight targetWidth targetHeight : float)
    (preserveAspectRatio : option string) : Box :=
  if bool_decide (preserveAspectRatio = Some "none") then
    {| box_x := 0; box_y := 0; box_width := targetWidth; box_height := targetHeight |}
  else
    let originalRatio := originalWidth / originalHeight in
    let targetRatio := targetWidth / targetHeight in
    let width :=
      if originalRatio <? targetRatio then originalRatio * targetHeight
      else targetWidth in
    let height :=
      if originalRatio <=? targetRatio then targetHeight
      else targetWidth / originalRatio in
    let dx := targetWidth - width in
    let dy := targetHeight - height in
    let given token := bool_decide (preserveAspectRatio = Some token) in
    let '(x, y) :=
      if given "xMinYMin" then (0, 0)
      else if given "xMidYMin" then (dx / 2, 0)
      else if given "xMaxYMin" then (dx, dy / 2)
      else if given "xMinYMid" then (0, dy)
      else if given "xMaxYMid" then (dx, dy / 2)
      else if given "xMinYMax" then (0, dy)
      else if given "xMidYMax" then (dx / 2, dy)
      else if given "xMaxYMax" then (dx, dy)
      else (dx / 2, dy / 2) in
    {| box_x := x; box_y := y; box_width := width; box_height := height |}.

Definition getConverter (box : Size) (viewBox : Box) : SVGSizeConverter :=
  let xMin := box_x viewBox in
  let yMin := box_y viewBox in
  let viewWidth := box_width viewBox in
  let viewHeight := box_height viewBox in
  {| point := λ xReal yReal,
       {| x := ((xReal - xMin) / viewWidth) * JS.or_num (Some (width box)) 0;
          y := ((yReal - yMin) / viewHeight) * JS.or_num (Some (height box)) 0 |};
     size := λ wReal hReal,
       {| width := (wReal / viewWidth) * JS.or_num (Some (width box)) 0;
          height := (hReal / viewHeight) * JS.or_num (Some (height box)) 0 |} |}.

Definition getConverterWithAspectRatio (size_ : Size) (viewBox : Box)
    (preserveAspectRatio : option string) : SVGSizeConverter :=
  let fit :=
    getFittingRectangle (box_width viewBox) (box_height viewBox)
      (width size_) (height size_) preserveAspectRatio in
  let ratioConverter :=
    getConverter {| width := box_width fit; height := box_height fit |} viewBox in
  {| point := λ xReal yReal,
       let P := point ratioConverter xReal yReal in
       {| x := x P + box_x fit; y := y P + box_y fit |};
     size := size ratioConverter |}.

(** ** Strings the resolver takes apart itself *)

(** [s.charAt(0)] and [s.slice(1)]. *)
Definition charAt0 (s : string) : string :=
  match s with
  | EmptyString => ""
  | String c _ => String c ""
  end.

Definition slice1 (s : string) : string :=
  match s with
  | EmptyString => ""
  | String _ rest => rest
  end.

(** [value.endsWith('%')]. *)
Fixpoint endsWithPercent (value : string) : bool :=
  match value with
  | EmptyString => false
  | String c EmptyString => Ascii.eqb c "%"%char
  | String _ rest => endsWithPercent rest
  end.

(** [s.split(' ')]. *)
Fixpoint splitSpaces_go (current : string) (s : string) : list string :=
  match s with
  | EmptyString => [String.rev current]
  | String c rest =>
      if Ascii.eqb c " "%char then String.rev current :: splitSpaces_go "" rest
      else splitSpaces_go (String c current) rest
  end.

Definition splitSpaces (s : string) : list string := splitSpaces_go "" s.

(** [xs.join(sep)] on strings. *)
Definition join (sep : string) (xs : list string) : string := String.concat sep xs.

(** ** Attributes *)

Definition StrokeLineCapMap : gmap string LineCapStyle.t :=
  list_to_map
    [("butt", LineCapStyle.Butt); ("round", LineCapStyle.Round);
     ("square", LineCapStyle.Projecting)].

Definition StrokeLineJoinMap : gmap string LineJoinStyle.t :=
  list_to_map
    [("bevel", LineJoinStyle.Bevel); ("miter", LineJoinStyle.Miter);
     ("round", LineJoinStyle.Round)].

(** [{ angle, type: RotationTypes.Degrees }] *)
Record Degrees := degrees { angle : float }.

(** The line cap and the line join are what a lookup in the two tables
    above found: a member of the enumeration, or a member of
    [Object.prototype] when the markup names one. *)
Module InheritedAttributes.
Record t := mk {
  width : float;
  height : float;
  fill : option Color;
  fillOpacity : option float;
  stroke : option Color;
  strokeWidth : option float;
  strokeOpacity : option float;
  strokeLineCap : option (JS.Property LineCapStyle.t);
  strokeLineJoin : option (JS.Property LineJoinStyle.t);
  fontFamily : option string;
  fontSize : option float;
  rotation : option Degrees;
}.
End InheritedAttributes.

(** A key that was never assigned and a key holding [undefined] are both
    [None]. *)
Module SVGAttributes.
Record t := mk {
  rotate : option Degrees;
  scale : option float;
  skewX : option Degrees;
  skewY : option Degrees;
  width : option float;
  height : option float;
  x : option float;
  y : option float;
  cx : option float;
  cy : option float;
  r : option float;
  rx : option float;
  ry : option float;
  x1 : option float;
  y1 : option float;
  x2 : option float;
  y2 : option float;
  d : option string;
  src : option string;
  textAnchor : option string;
  preserveAspectRatio : option string;
}.
End SVGAttributes.

(** [InheritedAttributes & SVGAttributes], the [svgAttributes] of a resolved
    element. *)
Record ResolvedAttributes := mkResolved {
  inherited_part : InheritedAttributes.t;
  own_part : SVGAttributes.t;
}.

(** The keys both halves have: [{ ...inherited, ...svgAttributes }] keeps the
    inherited value unless the element assigned its own. *)
Definition resolved_width (a : ResolvedAttributes) : float :=
  default (InheritedAttributes.width (inherited_part a))
    (SVGAttributes.width (own_part a)).

Definition resolved_height (a : ResolvedAttributes) : float :=
  default (InheritedAttributes.height (inherited_part a))
    (SVGAttributes.height (own_part a)).

(** The markup tree of the parser: a comment and a text with the text they
    hold, an element with its tag, attributes and child nodes. *)
#[warnings="-register-all"] Inductive Node :=
| COMMENT_NODE (text : string)
| TEXT_NODE (text : string)
| ELEMENT_NODE (tagName : string) (attributes : gmap string string)
    (childNodes : list Node).

Record SVGElement := mkSVGElement {
  tagName : string;
  childNodes : list Node;
  svgAttributes : ResolvedAttributes;
}.

Record ParsedAttributes := mkParsed {
  inherited : InheritedAttributes.t;
  converter : SVGSizeConverter;
  parsed_tagName : string;
  parsed_svgAttributes : SVGAttributes.t;
}.

(** [a || b] on optional strings, and the truth of an optional string. *)
Definition or_str (a b : option string) : option string :=
  match a with
  | Some s => if JS.truthyStr s then a else b
  | None => b
  end.

Definition given (a : option string) : bool :=
  match a with
  | Some s => JS.truthyStr s
  | None => false
  end.

Definition styleOrAttribute (attributes style : gmap string string)
    (attribute : string) (def : option string) : option string :=
  let value := or_str (style !! attribute) (attributes !! attribute) in
  if negb (given value) && bool_decide (is_Some def) then def else value.

(** ** The attribute resolver *)

Section Resolver.
Context `{Runtime}.

(** [style] is [attributes.style], which may be missing: [exec] then runs
    on the text of [undefined].  The result holds the properties the loop
    gave the object: [css[name] = value] writes one, except for the name
    [__proto__], where the assignment goes to the inherited setter, which
    ignores a text. *)
Definition parseStyles (style : option string) : gmap string string :=
  foldl
    (λ css m,
       let name := default "undefined" m.1 in
       if String.eqb name "__proto__" then css else <[name := m.2]> css)
    ∅ (cssRegex (default "undefined" style)).

Definition parseColor (color : option string)
  : option (Color * option string) :=
  match color with
  | None => None
  | Some c =>
      if negb (JS.truthyStr c) then None
      else if bool_decide (c ∈ ["none"; "transparent"]) then None
      else
        let parsedColor := colorString c in
        Some (parsedColor.1,
              match parsedColor.2 with
              | Some alpha =>
                  if JS.truthy alpha then Some (numberToString alpha +:+ "")
                  else None
              | None => None
              end)
  end.

Definition parseFloatValue (value : option string) (reference : float)
  : option float :=
  match value with
  | None => None
  | Some value =>
      if negb (JS.truthyStr value) then None
      else
        let v := parseFloat value in
        if is_nan v then None
        else if endsWithPercent value then Some ((v * reference) / 100)
        else Some v
  end.

Definition parseViewBox (viewBox : option string) : option Box :=
  match viewBox with
  | None => None
  | Some text =>
      if negb (JS.truthyStr text) then None
      else
        let parts := (λ val, parseFloatValue (Some val) 1) <$> splitSpaces text in
        let part i def := default def (mjoin (parts !! i)) in
        Some {| box_x := part 0%nat 0; box_y := part 1%nat 0;
                box_width := part 2%nat 1; box_height := part 3%nat 1 |}
  end.

(** The direct attributes that are put in front of the transform list, in
    the order [forEach] visits them. *)
Definition directTransforms : list string :=
  ["translate"; "translateX"; "translateY"; "skewX"; "skewY"; "rotate";
   "scale"; "scaleX"; "scaleY"].

Definition prependDirect (attributes : gmap string string)
    (transformList : string) : string :=
  foldl
    (λ transformList name,
       match attributes !! name with
       | Some v => if JS.truthyStr v then v +:+ " " +:+ transformList else transformList
       | None => transformList
       end)
    transformList directTransforms.

(** The number the drawing primitive gets for [skewX], [skewY], [rotate]
    and [scale]. *)
Definition directNumber (attributes : gmap string string) (name : string)
  : option float :=
  match attributes !! name with
  | Some v =>
      if JS.truthyStr v then parseInt10 <$> firstNumber v else None
  | None => None
  end.

(** The loop over [regexTransform.exec]. *)
Definition applyTransforms (converter : SVGSizeConverter)
    (transformList : string) : Console SVGSizeConverter :=
  foldl
    (λ acc parsed,
       let* newConverter := acc in
       let '(name, rawArgs) := parsed in
       let args :=
         parseFloat <$> filter (λ value, (0 < String.length value)%nat)
                          (splitArgs rawArgs) in
       transform newConverter name args)
    (ret converter) (regexTransform transformList).

(** The callback of the [v]/[h] replacement. *)
Definition rewriteVH (converter : SVGSizeConverter) (xOrigin yOrigin : float)
    (elt : string) : string :=
  let letter := charAt0 elt in
  let coord := JS.or_num (parseFloatValue (Some (trim (slice1 elt))) 1) 1 in
  if String.eqb letter (toLowerCase letter) then
    if String.eqb letter "h"
    then "h" +:+ numberToString (width (size converter coord 1))
    else "v" +:+ numberToString (height (size converter 1 coord))
  else
    if String.eqb letter "H"
    then "H" +:+ numberToString (x (point converter coord 1) - xOrigin)
    else "V" +:+ numberToString (y (point converter 1 coord) - yOrigin).

(** The callback of the arc replacement. *)
Definition rewriteArc (converter : SVGSizeConverter)
    (inherited : InheritedAttributes.t) (xOrigin yOrigin : float)
    (elt : string) : string :=
  let letter := charAt0 elt in
  let params := slice1 elt in
  let nums := allNumbers params in
  let rx := nums !! 0%nat in
  let ry := nums !! 1%nat in
  let xAxisRotation := default "0" (nums !! 2%nat) in
  let largeArc := default "0" (nums !! 3%nat) in
  let sweepFlag := default "0" (nums !! 4%nat) in
  let x_ := nums !! 5%nat in
  let y_ := nums !! 6%nat in
  let realRx := JS.or_num (parseFloatValue rx (InheritedAttributes.width inherited)) 0 in
  let realRy := JS.or_num (parseFloatValue ry (InheritedAttributes.height inherited)) 0 in
  let realX := JS.or_num (parseFloatValue x_ (InheritedAttributes.width inherited)) 0 in
  let realY := JS.or_num (parseFloatValue y_ (InheritedAttributes.height inherited)) 0 in
  let newR := size converter realRx realRy in
  let '(newX, newY) :=
    if String.eqb letter (toLowerCase letter) then
      let s := size converter realX realY in (width s, height s)
    else
      let p := point converter realX realY in (x p, y p) in
  join " "
    [letter; numberToString (width newR); numberToString (height newR);
     xAxisRotation; largeArc; sweepFlag;
     numberToString (newX - xOrigin); numberToString (newY - yOrigin)].

(** One coordinate pair of an [l], [t], [m], [q] or [c] command. *)
Definition rewritePair (converter : SVGSizeConverter)
    (inherited : InheritedAttributes.t) (xOrigin yOrigin : float)
    (letter : string) (pair : string * string) : string :=
  let '(a, b) := pair in
  let xReal := JS.or_num (parseFloatValue (Some a) (InheritedAttributes.width inherited)) 0 in
  let yReal := JS.or_num (parseFloatValue (Some b) (InheritedAttributes.height inherited)) 0 in
  if String.eqb letter (toLowerCase letter) then
    let s := size converter xReal yReal in
    let dx := width s in
    let dy := height s in
    join "," [numberToString dx; numberToString (- dy)]
  else
    let p := point converter xReal yReal in
    let xPixel := x p in
    let yPixel := y p in
    join "," [numberToString (xPixel - xOrigin); numberToString (yPixel - yOrigin)].

(** The callback of the replacement of the other letters. *)
Definition rewriteCoords (converter : SVGSizeConverter)
    (inherited : InheritedAttributes.t) (xOrigin yOrigin : float)
    (elt : string) : string :=
  let letter := charAt0 elt in
  let coords := slice1 elt in
  letter +:+
    join " " (rewritePair converter inherited xOrigin yOrigin letter
                <$> coordPairs coords).

(** [if (attributes.d)]: the three replacements, one after the other. *)
Definition rewritePathData (converter : SVGSizeConverter)
    (inherited : InheritedAttributes.t) (d : string) : string :=
  let origin := point converter 0 0 in
  let xOrigin := x origin in
  let yOrigin := y origin in
  let d1 := replaceVH d (rewriteVH converter xOrigin yOrigin) in
  let d2 := replaceArc d1 (rewriteArc converter inherited xOrigin yOrigin) in
  replaceCoords d2 (rewriteCoords converter inherited xOrigin yOrigin).

(** [if (newInherited.strokeWidth)]: the width through the size mapping,
    then the clamp. *)
Definition resolveStrokeWidth (newConverter : SVGSizeConverter)
    (strokeWidth : option float) : option float :=
  match strokeWidth with
  | Some w =>
      if JS.truthy w then
        let result := size newConverter w w in
        Some (JS.Math_max
                (JS.Math_min (JS.Math_abs (width result))
                   (JS.Math_abs (height result)))
                1)
      else strokeWidth
  | None => strokeWidth
  end.

End Resolver.

Section ParseAttributes.
Context `{Runtime}.

Definition truthyNum (v : option float) : bool :=
  match v with
  | Some n => JS.truthy n
  | None => false
  end.

(** [table[key] || fallback] for the line cap and line join tables; what a
    table inherits is a function or an object, which is truthy. *)
Definition lookupOr {V} (truthy : V → bool) (table : gmap string V)
    (key : option string) (fallback : option (JS.Property V))
  : option (JS.Property V) :=
  match JS.get (table !!.) (default "undefined" key) with
  | Some (JS.Own v) => if truthy v then Some (JS.Own v) else fallback
  | Some (JS.Inherited name) => Some (JS.Inherited name)
  | None => fallback
  end.

(** The cascade of the stroke width: the element's own value, from its
    style or its attribute, else the inherited one. *)
Definition cascadedStrokeWidth (attributes : gmap string string)
    (inherited : InheritedAttributes.t) : option float :=
  let style := parseStyles (attributes !! "style") in
  let strokeWidthRaw := styleOrAttribute attributes style "stroke-width" None in
  JS.nullish (parseFloatValue strokeWidthRaw 1)
    (InheritedAttributes.strokeWidth inherited).

(** The transform list the converter is composed from: the [transform]
    attribute, the direct attributes in front of it, and in front of those
    the translation that stands for [x] and [y]. *)
Definition transformListOf (attributes : gmap string string)
    (inherited : InheritedAttributes.t) : string :=
  let x_ := parseFloatValue (attributes !! "x") (InheritedAttributes.width inherited) in
  let y_ := parseFloatValue (attributes !! "y") (InheritedAttributes.height inherited) in
  let transformList := default "" (attributes !! "transform") in
  (* Handle transformations set as direct attributes *)
  let transformList := prependDirect attributes transformList in
  (* Convert x/y as if it was a translation *)
  if truthyNum x_ || truthyNum y_ then
    "translate(" +:+ numberToString (JS.or_num x_ 0) +:+ " "
      +:+ numberToString (JS.or_num y_ 0) +:+ ") " +:+ transformList
  else transformList.

(** [if (transformList) { ... }]: apply the transformations. *)
Definition composeTransforms (converter : SVGSizeConverter)
    (transformList : string) : Console SVGSizeConverter :=
  if JS.truthyStr transformList then applyTransforms converter transformList
  else ret converter.

(** What [parseAttributes] resolves once [newConverter] is composed. *)
Definition resolveAttributes (tagName : string) (attributes : gmap string string)
    (inherited : InheritedAttributes.t) (converter newConverter : SVGSizeConverter)
  : ParsedAttributes :=
  let style := parseStyles (attributes !! "style") in
  let widthRaw := styleOrAttribute attributes style "width" (Some "") in
  let heightRaw := styleOrAttribute attributes style "height" (Some "") in
  let fillRaw := parseColor (styleOrAttribute attributes style "fill" None) in
  let fillOpacityRaw := styleOrAttribute attributes style "fill-opacity" None in
  let opacityRaw := styleOrAttribute attributes style "opacity" None in
  let strokeRaw := parseColor (styleOrAttribute attributes style "stroke" None) in
  let strokeOpacityRaw := styleOrAttribute attributes style "stroke-opacity" None in
  let strokeLineCapRaw := styleOrAttribute attributes style "stroke-linecap" None in
  let strokeLineJoinRaw := styleOrAttribute attributes style "stroke-linejoin" None in
  let fontFamilyRaw := styleOrAttribute attributes style "font-family" None in
  let fontSizeRaw := styleOrAttribute attributes style "font-size" None in
  let inheritedWidth := InheritedAttributes.width inherited in
  let inheritedHeight := InheritedAttributes.height inherited in

  let width_ := parseFloatValue widthRaw inheritedWidth in
  let height_ := parseFloatValue heightRaw inheritedHeight in
  let x1 := parseFloatValue (attributes !! "x1") inheritedWidth in
  let x2 := parseFloatValue (attributes !! "x2") inheritedWidth in
  let y1 := parseFloatValue (attributes !! "y1") inheritedHeight in
  let y2 := parseFloatValue (attributes !! "y2") inheritedHeight in
  let cx := parseFloatValue (attributes !! "cx") inheritedWidth in
  let cy := parseFloatValue (attributes !! "cy") inheritedHeight in
  let rx :=
    parseFloatValue (or_str (attributes !! "rx") (attributes !! "r")) inheritedWidth in
  let ry :=
    parseFloatValue (or_str (attributes !! "ry") (attributes !! "r")) inheritedHeight in

  let newFontFamily := or_str fontFamilyRaw (InheritedAttributes.fontFamily inherited) in
  let newFontSize :=
    JS.nullish (parseFloatValue fontSizeRaw 1) (InheritedAttributes.fontSize inherited) in
  let newStrokeWidth := cascadedStrokeWidth attributes inherited in
  let newWidth := JS.or_num width_ inheritedWidth in
  let newHeight := JS.or_num height_ inheritedHeight in

  let origin := point newConverter 0 0 in
  let both {T} (a b : string) (v : T) : option T :=
    if given (attributes !! a) || given (attributes !! b) then Some v else None in
  let c := point newConverter (JS.or_num cx 0) (JS.or_num cy 0) in
  let radii := size newConverter (JS.or_num rx 0) (JS.or_num ry 0) in
  let p1 := point newConverter (JS.or_num x1 0) (JS.or_num y1 0) in
  let p2 := point newConverter (JS.or_num x2 0) (JS.or_num y2 0) in
  let size_ := size converter newWidth newHeight in
  let svgAttributes :=
    {| SVGAttributes.rotate := degrees <$> directNumber attributes "rotate";
       SVGAttributes.scale := directNumber attributes "scale";
       SVGAttributes.skewX := degrees <$> directNumber attributes "skewX";
       SVGAttributes.skewY := degrees <$> directNumber attributes "skewY";
       SVGAttributes.width := both "width" "height" (width size_);
       SVGAttributes.height := both "width" "height" (height size_);
       SVGAttributes.x := Some (x origin);
       SVGAttributes.y := Some (y origin);
       SVGAttributes.cx := both "cx" "cy" (x c);
       SVGAttributes.cy := both "cx" "cy" (y c);
       SVGAttributes.r := None;
       SVGAttributes.rx := both "rx" "ry" (width radii);
       SVGAttributes.ry := both "rx" "ry" (height radii);
       SVGAttributes.x1 := both "x1" "y1" (x p1);
       SVGAttributes.y1 := both "x1" "y1" (y p1);
       SVGAttributes.x2 := both "x2" "y2" (x p2);
       SVGAttributes.y2 := both "x2" "y2" (y p2);
       (* We convert all the points from the path *)
       SVGAttributes.d :=
         match attributes !! "d" with
         | Some d =>
             if JS.truthyStr d then Some (rewritePathData converter inherited d)
             else None
         | None => None
         end;
       SVGAttributes.src := or_str (attributes !! "src") (attributes !! "xlink:href");
       SVGAttributes.textAnchor := attributes !! "text-anchor";
       SVGAttributes.preserveAspectRatio := attributes !! "preserveAspectRatio" |} in

  let newConverter :=
    match parseViewBox (attributes !! "viewBox") with
    | Some viewBox =>
        let localConverter :=
          getConverterWithAspectRatio
            {| width := newWidth; height := newHeight |} viewBox
            (attributes !! "preserveAspectRatio") in
        let oldConverter := newConverter in
        {| point := λ px py,
             let l := point localConverter px py in
             point oldConverter (x l) (y l);
           size := λ w h,
             let l := size localConverter w h in
             size oldConverter (width l) (height l) |}
    | None => newConverter
    end in

  let newFontSize :=
    if truthyNum newFontSize
    then Some (height (size newConverter 1 (JS.toNumber newFontSize)))
    else newFontSize in
  (* Handle complex fontFamily like `"Linux Libertine O", serif` *)
  let newFontFamily :=
    match newFontFamily with
    | Some family =>
        if JS.truthyStr family then
          match fontFamilyInner family with
          | Some inner => inner
          | None => newFontFamily
          end
        else newFontFamily
    | None => newFontFamily
    end in
  let newInherited :=
    {| InheritedAttributes.fontFamily := newFontFamily;
       InheritedAttributes.fontSize := newFontSize;
       InheritedAttributes.fill :=
         match fillRaw with
         | Some parsed => Some parsed.1
         | None => InheritedAttributes.fill inherited
         end;
       InheritedAttributes.fillOpacity :=
         JS.nullish
           (parseFloatValue
              (or_str (or_str fillOpacityRaw opacityRaw) (fillRaw ≫= snd)) 1)
           (InheritedAttributes.fillOpacity inherited);
       InheritedAttributes.stroke :=
         match strokeRaw with
         | Some parsed => Some parsed.1
         | None => InheritedAttributes.stroke inherited
         end;
       InheritedAttributes.strokeWidth := resolveStrokeWidth newConverter newStrokeWidth;
       InheritedAttributes.strokeOpacity :=
         JS.nullish
           (parseFloatValue
              (or_str (or_str strokeOpacityRaw opacityRaw) (strokeRaw ≫= snd)) 1)
           (InheritedAttributes.strokeOpacity inherited);
       InheritedAttributes.strokeLineCap :=
         lookupOr LineCapStyle_truthy StrokeLineCapMap strokeLineCapRaw
           (InheritedAttributes.strokeLineCap inherited);
       InheritedAttributes.strokeLineJoin :=
         lookupOr LineJoinStyle_truthy StrokeLineJoinMap strokeLineJoinRaw
           (InheritedAttributes.strokeLineJoin inherited);
       InheritedAttributes.width := newWidth;
       InheritedAttributes.height := newHeight;
       InheritedAttributes.rotation := None |} in
  {| inherited := newInherited;
     parsed_svgAttributes := svgAttributes;
     converter := newConverter;
     parsed_tagName := tagName |}.

Definition parseAttributes (tagName : string) (attributes : gmap string string)
    (inherited : InheritedAttributes.t) (converter : SVGSizeConverter)
  : Console ParsedAttributes :=
  let* newConverter :=
    composeTransforms converter (transformListOf attributes inherited) in
  ret (resolveAttributes tagName attributes inherited converter newConverter).

(** The leaf case of [parseHTMLNode] merges the two halves; a group hands
    its resolved attributes and converter down to its children. *)
Fixpoint parseHTMLNode (node : Node) (inherited : InheritedAttributes.t)
    (converter : SVGSizeConverter) : Console (list SVGElement) :=
  match node with
  | COMMENT_NODE _ => ret []
  | TEXT_NODE _ => ret []
  | ELEMENT_NODE tagName attributes childNodes =>
      let* attributes_ := parseAttributes tagName attributes inherited converter in
      let '(mkParsed newInherited newConverter _ svgAttributes) := attributes_ in
      if String.eqb tagName "g" || String.eqb tagName "svg" then
        foldl
          (λ acc child,
             let* result := acc in
             let* more := parseHTMLNode child newInherited newConverter in
             ret (result ++ more))
          (ret []) childNodes
      else
        ret [ {| tagName := tagName;
                 childNodes := childNodes;
                 svgAttributes :=
                   {| inherited_part := newInherited;
                      own_part := svgAttributes |} |} ]
  end.

End ParseAttributes.

(** ** The page: the calls of the external drawing interface *)

Record PDFFont := mkFont { fontName : string }.

Module DrawText.
Record t := mk {
  x : float; y : float; font : option (JS.Property PDFFont); size : float;
  color : option Color; opacity : option float; rotate : option Degrees;
}.
End DrawText.

Module DrawLine.
Record t := mk {
  start : Position; end_ : Position; thickness : option float;
  color : option Color; opacity : option float;
  lineCap : option (JS.Property LineCapStyle.t);
}.
End DrawLine.

Module DrawSvgPath.
Record t := mk {
  x : float; y : float; borderColor : option Color;
  borderWidth : option float; borderOpacity : option float;
  borderLineCap : option (JS.Property LineCapStyle.t); color : option Color;
  opacity : option float; scale : option float; rotate : option Degrees;
}.
End DrawSvgPath.

Module DrawImage.
Record t := mk {
  x : float; y : float; width : float; height : float;
  opacity : option float; xSkew : option Degrees; ySkew : option Degrees;
  rotate : option Degrees;
}.
End DrawImage.

Module DrawRectangle.
Record t := mk {
  x : option float; y : float; width : float; height : float;
  borderColor : option Color; borderWidth : option float;
  borderOpacity : option float; borderLineCap : option (JS.Property LineCapStyle.t);
  color : option Color; opacity : option float;
  xSkew : option Degrees; ySkew : option Degrees; rotate : option Degrees;
}.
End DrawRectangle.

Module DrawEllipse.
Record t := mk {
  x : option float; y : option float;
  xScale : option float; yScale : option float;
  borderColor : option Color; borderWidth : option float;
  borderOpacity : option float; borderLineCap : option (JS.Property LineCapStyle.t);
  color : option Color; opacity : option float; rotate : option Degrees;
}.
End DrawEllipse.

Inductive DrawCall :=
| drawText (text : string) (options : DrawText.t)
| drawLine (options : DrawLine.t)
| drawSvgPath (path : option string) (options : DrawSvgPath.t)
| drawImage (img : Size) (options : DrawImage.t)
| drawRectangle (options : DrawRectangle.t)
| drawEllipse (options : DrawEllipse.t).

(** What becomes of the promise of a runner: it is fulfilled after the
    calls the runner made on the page, or rejected, with the [TypeError] of
    reading a property of [undefined] or with the error of [embedPng]. *)
Inductive Outcome :=
| Done (calls : list DrawCall)
| TypeError
| EmbedError.

(** What the dispatcher asks of the page: [page.getSize()] and, for
    [page.doc.embedPng], the size of the embedded image, or nothing when
    the source of the image is missing or cannot be read as a PNG. *)
Record PDFPage := mkPage {
  getSize : Size;
  embedPng : option string → option Size;
}.

Module Options.
Record t := mk {
  width : option float;
  height : option float;
  x : option float;
  y : option float;
  fontSize : option float;
  (** the properties the caller gave the [fonts] object *)
  fonts : option (gmap string PDFFont);
}.
End Options.

Abbreviation PDFPageDrawSVGElementOptions := Options.t.

(** [node.text] of the parser: the text a comment or a text holds, and for
    an element the texts of its child nodes, one after the other. *)
Fixpoint nodeText (node : Node) : string :=
  match node with
  | COMMENT_NODE text => text
  | TEXT_NODE text => text
  | ELEMENT_NODE _ _ childNodes => String.concat "" (nodeText <$> childNodes)
  end.

(** [text.length] as a number. *)
Definition lengthNumber (text : string) : float :=
  of_uint63 (Uint63.of_Z (Z.of_nat (JS.length text))).

(** The converter [drawSvg] starts from, for a page of the given height:
    the y axis of the page is reverted. *)
Definition defaultConverter (pageHeight : float) : SVGSizeConverter :=
  {| point := λ x_ y_, {| x := x_; y := pageHeight - y_ |};
     size := λ w h, {| width := w; height := h |} |}.

(** The inherited attributes [parse] starts from: the size of the page, and
    nothing else. *)
Definition pageAttributes (pageWidth pageHeight : float) : InheritedAttributes.t :=
  {| InheritedAttributes.width := pageWidth;
     InheritedAttributes.height := pageHeight;
     InheritedAttributes.fill := None;
     InheritedAttributes.fillOpacity := None;
     InheritedAttributes.stroke := None;
     InheritedAttributes.strokeWidth := None;
     InheritedAttributes.strokeOpacity := None;
     InheritedAttributes.strokeLineCap := None;
     InheritedAttributes.strokeLineJoin := None;
     InheritedAttributes.fontFamily := None;
     InheritedAttributes.fontSize := None;
     InheritedAttributes.rotation := None |}.

(** The target rectangle of [drawSvg]:
    [new Rectangle(new Point({x, y}), new Point({x: x + width, y: y - height}))] *)
Definition svgRectOf (x_ y_ width_ height_ : float) : Rectangle :=
  new_Rectangle {| x := x_; y := y_ |} {| x := x_ + width_; y := y_ - height_ |}.

(** ** The path rewriter and the draw dispatcher *)

Record PathStep := mkStep { step_point : Point; step_command : string }.

Section Runners.
Context `{Geometry} `{Runtime}.

(** A value in a template literal. *)
Definition tpl (v : option float) : string :=
  match v with
  | Some n => numberToString n
  | None => "undefined"
  end.

Definition normalizePoint (basePoint p : Point) : Point :=
  {| x := x p - x basePoint; y := y p - y basePoint |}.

Definition handlePath (svgRect : Rectangle) (basePoint currentPoint : Point)
    (command : string) (params : list float) : PathStep :=
  if String.eqb command "m" || String.eqb command "M" then
    let nextPoint :=
      {| x := x basePoint + arg params 0; y := y basePoint + arg params 1 |} in
    {| step_point := nextPoint;
       step_command :=
         command +:+ tpl (params !! 0%nat) +:+ "," +:+ tpl (params !! 1%nat) |}
  else if String.eqb command "l" || String.eqb command "L" then
    let isLocalInstruction := String.eqb command "l" in
    let nextPoint :=
      {| x := (if isLocalInstruction then x currentPoint else x basePoint)
              + arg params 0;
         y := (if isLocalInstruction then y currentPoint else y basePoint)
              + arg params 1 |} in
    let normalizedNext := normalizePoint basePoint nextPoint in
    let moveToNext :=
      if isLocalInstruction
      then "M" +:+ numberToString (x normalizedNext) +:+ ","
             +:+ numberToString (y normalizedNext)
      else "M" +:+ tpl (params !! 0%nat) +:+ "," +:+ tpl (params !! 1%nat) in
    let endPoint := {| x := x nextPoint; y := y nextPoint |} in
    let startPoint := {| x := x currentPoint; y := y currentPoint |} in
    match getInnerSegment startPoint endPoint svgRect with
    | None => {| step_point := nextPoint; step_command := moveToNext |}
    | Some result =>
        (* if the point wasn't moved it means that it's inside the rect *)
        let isStartInside := Point_isEqual (A result) startPoint in
        let isEndInside := Point_isEqual (B result) endPoint in
        let endPoint := normalizePoint basePoint (new_Point (toCoords (B result))) in
        let startPoint := normalizePoint basePoint (new_Point (toCoords (A result))) in
        let startInstruction :=
          if isStartInside then ""
          else "M" +:+ numberToString (x startPoint) +:+ ","
                 +:+ numberToString (y startPoint) in
        let endInstruction := if isEndInside then "" else moveToNext in
        {| step_point := nextPoint;
           step_command :=
             startInstruction +:+ " L" +:+ numberToString (x endPoint) +:+ ","
               +:+ numberToString (y endPoint) +:+ " " +:+ endInstruction +:+ " " |}
    end
  else
    {| step_point := currentPoint;
       step_command := command +:+ " " +:+ join "," (numberToString <$> params) |}.

(** The [map] over the commands of a path: [currentPoint] is carried from
    one command to the next. *)
Definition rewriteCommands (svgRect : Rectangle) (basePoint : Point)
    (commands : list string) : list string :=
  (foldl
     (λ '(currentPoint, out) command,
        match firstLetter command, numberRuns command with
        | Some letter, Some runs =>
            if JS.truthyStr letter then
              let params :=
                parseFloat <$> filter (λ m, m ≠ "") runs in
              let result := handlePath svgRect basePoint currentPoint letter params in
              (step_point result, out ++ [step_command result])
            else (currentPoint, out ++ [command])
        | _, _ => (currentPoint, out ++ [command])
        end)
     ({| x := x basePoint; y := y basePoint |}, []) commands).2.

Section Dispatch.
Variables (svgRect : Rectangle) (page : PDFPage)
  (options : PDFPageDrawSVGElementOptions).

Definition own (element : SVGElement) := own_part (svgAttributes element).
Definition inh (element : SVGElement) := inherited_part (svgAttributes element).

Definition text (element : SVGElement) : Outcome :=
  let anchor := SVGAttributes.textAnchor (own element) in
  match head (childNodes element) with
  | None => TypeError
  | Some child =>
      let text := nodeText child in
      let fontSize := JS.or_num (InheritedAttributes.fontSize (inh element)) 12 in
      let textWidth := (lengthNumber text * fontSize) / 2 in
      let offset :=
        if bool_decide (anchor = Some "middle") then textWidth / 2
        else if bool_decide (anchor = Some "end") then textWidth
        else 0 in
      let point :=
        {| x := JS.or_num (SVGAttributes.x (own element)) 0 - offset;
           y := JS.or_num (SVGAttributes.y (own element)) 0 |} in
      if isCoordinateInsideTheRect point svgRect then
        Done
          [drawText text
             {| DrawText.x := x point;
                DrawText.y := y point;
                DrawText.font :=
                  match Options.fonts options, InheritedAttributes.fontFamily (inh element) with
                  | Some fonts, Some family =>
                      if JS.truthyStr family then JS.get (fonts !!.) family else None
                  | _, _ => None
                  end;
                DrawText.size := fontSize;
                DrawText.color := InheritedAttributes.fill (inh element);
                DrawText.opacity := InheritedAttributes.fillOpacity (inh element);
                DrawText.rotate := SVGAttributes.rotate (own element) |}]
      else Done []
  end.

Definition line (element : SVGElement) : Outcome :=
  let start :=
    {| x := JS.toNumber (SVGAttributes.x1 (own element));
       y := JS.toNumber (SVGAttributes.y1 (own element)) |} in
  let end_ :=
    {| x := JS.toNumber (SVGAttributes.x2 (own element));
       y := JS.toNumber (SVGAttributes.y2 (own element)) |} in
  match getInnerSegment start end_ svgRect with
  | None => Done []
  | Some line =>
      Done
        [drawLine
           {| DrawLine.start := toCoords (A line);
              DrawLine.end_ := toCoords (B line);
              DrawLine.thickness := InheritedAttributes.strokeWidth (inh element);
              DrawLine.color := InheritedAttributes.stroke (inh element);
              DrawLine.opacity := InheritedAttributes.strokeOpacity (inh element);
              DrawLine.lineCap := InheritedAttributes.strokeLineCap (inh element) |}]
  end.

Definition path (element : SVGElement) : Outcome :=
  (* the path origin coordinate *)
  let basePoint :=
    {| x := JS.or_num (SVGAttributes.x (own element)) 0;
       y := JS.or_num (SVGAttributes.y (own element)) 0 |} in
  match SVGAttributes.d (own element) with
  | None => TypeError
  | Some d =>
      let commands := pathCommands d in
      let newPath := (λ cs, join " " (rewriteCommands svgRect basePoint cs)) <$> commands in
      Done
        [drawSvgPath newPath
           {| DrawSvgPath.x := JS.or_num (SVGAttributes.x (own element)) 0;
              DrawSvgPath.y := JS.or_num (SVGAttributes.y (own element)) 0;
              DrawSvgPath.borderColor := InheritedAttributes.stroke (inh element);
              DrawSvgPath.borderWidth := InheritedAttributes.strokeWidth (inh element);
              DrawSvgPath.borderOpacity := InheritedAttributes.strokeOpacity (inh element);
              DrawSvgPath.borderLineCap := InheritedAttributes.strokeLineCap (inh element);
              DrawSvgPath.color := InheritedAttributes.fill (inh element);
              DrawSvgPath.opacity := InheritedAttributes.fillOpacity (inh element);
              DrawSvgPath.scale := SVGAttributes.scale (own element);
              DrawSvgPath.rotate := SVGAttributes.rotate (own element) |}]
  end.

Definition image (element : SVGElement) : Outcome :=
  match embedPng page (SVGAttributes.src (own element)) with
  | None => EmbedError
  | Some img =>
      let fit :=
        getFittingRectangle (width img) (height img)
          (JS.or_num (Some (resolved_width (svgAttributes element))) (width img))
          (JS.or_num (Some (resolved_height (svgAttributes element))) (height img))
          (SVGAttributes.preserveAspectRatio (own element)) in
      Done
        [drawImage img
           {| DrawImage.x := JS.or_num (SVGAttributes.x (own element)) 0 + box_x fit;
              DrawImage.y :=
                JS.or_num (SVGAttributes.y (own element)) 0 - box_y fit
                - box_height fit;
              DrawImage.width := box_width fit;
              DrawImage.height := box_height fit;
              DrawImage.opacity := InheritedAttributes.fillOpacity (inh element);
              DrawImage.xSkew := SVGAttributes.skewX (own element);
              DrawImage.ySkew := SVGAttributes.skewY (own element);
              DrawImage.rotate := SVGAttributes.rotate (own element) |}]
  end.

Definition rect (element : SVGElement) : Outcome :=
  if negb (bool_decide (is_Some (InheritedAttributes.fill (inh element))))
     && negb (bool_decide (is_Some (InheritedAttributes.stroke (inh element))))
  then Done []
  else
    Done
      [drawRectangle
         {| DrawRectangle.x := SVGAttributes.x (own element);
            DrawRectangle.y := JS.or_num (SVGAttributes.y (own element)) 0;
            DrawRectangle.width := resolved_width (svgAttributes element);
            DrawRectangle.height := resolved_height (svgAttributes element) * (-1);
            DrawRectangle.borderColor := InheritedAttributes.stroke (inh element);
            DrawRectangle.borderWidth := InheritedAttributes.strokeWidth (inh element);
            DrawRectangle.borderOpacity := InheritedAttributes.strokeOpacity (inh element);
            DrawRectangle.borderLineCap := InheritedAttributes.strokeLineCap (inh element);
            DrawRectangle.color := InheritedAttributes.fill (inh element);
            DrawRectangle.opacity := InheritedAttributes.fillOpacity (inh element);
            DrawRectangle.xSkew := SVGAttributes.skewX (own element);
            DrawRectangle.ySkew := SVGAttributes.skewY (own element);
            DrawRectangle.rotate := SVGAttributes.rotate (own element) |}].

Definition ellipse (element : SVGElement) : Outcome :=
  Done
    [drawEllipse
       {| DrawEllipse.x := SVGAttributes.cx (own element);
          DrawEllipse.y := SVGAttributes.cy (own element);
          DrawEllipse.xScale := SVGAttributes.rx (own element);
          DrawEllipse.yScale := SVGAttributes.ry (own element);
          DrawEllipse.borderColor := InheritedAttributes.stroke (inh element);
          DrawEllipse.borderWidth := InheritedAttributes.strokeWidth (inh element);
          DrawEllipse.borderOpacity := InheritedAttributes.strokeOpacity (inh element);
          DrawEllipse.borderLineCap := InheritedAttributes.strokeLineCap (inh element);
          DrawEllipse.color := InheritedAttributes.fill (inh element);
          DrawEllipse.opacity := InheritedAttributes.fillOpacity (inh element);
          DrawEllipse.rotate := SVGAttributes.rotate (own element) |}].

Definition circle (element : SVGElement) : Outcome := ellipse element.

(** The object [runnersToPage] returns: the seven runners the literal gives
    it, by their keys. *)
Definition runnersToPage (cmd : string) : option (SVGElement → Outcome) :=
  if String.eqb cmd "text" then Some text
  else if String.eqb cmd "line" then Some line
  else if String.eqb cmd "path" then Some path
  else if String.eqb cmd "image" then Some image
  else if String.eqb cmd "rect" then Some rect
  else if String.eqb cmd "ellipse" then Some ellipse
  else if String.eqb cmd "circle" then Some circle
  else None.

End Dispatch.

(** [htmlElement.setAttribute(name, value)] on the root of the markup: only
    an element has the method, on a text or a comment the call is a
    [TypeError], here [None]. *)
Definition setAttribute (node : Node) (name value : string) : option Node :=
  match node with
  | ELEMENT_NODE tagName attributes childNodes =>
      Some (ELEMENT_NODE tagName (<[name := value]> attributes) childNodes)
  | _ => None
  end.

(** [firstChild.attributes]: only an element has them. *)
Definition attributesOf (node : Node) : option (gmap string string) :=
  match node with
  | ELEMENT_NODE _ attributes _ => Some attributes
  | _ => None
  end.

(** The five [setAttribute] calls of [parse]: [width], [height] and
    [fontSize] are written when they are truthy, [x] and [y] when they are
    defined. *)
Definition withOptions (htmlElement : Node) (options : PDFPageDrawSVGElementOptions)
    (size_ : Size) : option Node :=
  let set (v : option float) (name : string) (text : float → string) node :=
    match v with
    | Some n => if JS.truthy n then setAttribute node name (text n) else Some node
    | None => Some node
    end in
  let setDefined (v : option float) (name : string) (text : float → string) node :=
    match v with
    | Some n => setAttribute node name (text n)
    | None => Some node
    end in
  htmlElement ← set (Options.width options) "width" numberToString htmlElement;
  htmlElement ← set (Options.height options) "height" numberToString htmlElement;
  htmlElement ← setDefined (Options.x options) "x" numberToString htmlElement;
  htmlElement ←
    setDefined (Options.y options) "y" (λ y_, numberToString (height size_ - y_))
      htmlElement;
  set (Options.fontSize options) "font-size" numberToString htmlElement.

(** [parse], from the root [parseHtml(svg).firstChild]; [None] is the
    [TypeError] of a [setAttribute] that is not there. *)
Definition parse (htmlElement : Node) (options : PDFPageDrawSVGElementOptions)
    (size_ : Size) (converter : SVGSizeConverter)
  : option (Console (list SVGElement)) :=
  root ← withOptions htmlElement options size_;
  Some (parseHTMLNode root (pageAttributes (width size_) (height size_)) converter).

(** What [drawSvg] did: what became of each runner it started, in the order
    of the elements, and whether it went through all of them or stopped at a
    [TypeError] of its own.  The runners are not awaited: the promise of
    [drawSvg] is settled by then. *)
Record Drawing := mkDrawing { started : list Outcome; completed : bool }.

(** [elements.forEach((elt) => runners[elt.tagName]?.(elt))]: an element
    whose tag finds nothing is passed over; one whose tag finds an inherited
    member calls that member, which draws nothing and may throw, and a
    throw ends the loop. *)
Fixpoint dispatch (runners : string → option (SVGElement → Outcome))
    (elements : list SVGElement) : Drawing :=
  match elements with
  | [] => {| started := []; completed := true |}
  | elt :: elements =>
      match JS.get runners (tagName elt) with
      | Some (JS.Own runner) =>
          let rest := dispatch runners elements in
          {| started := runner elt :: started rest; completed := completed rest |}
      | Some (JS.Inherited key) =>
          if JS.inherited_call_throws key
          then {| started := []; completed := false |}
          else dispatch runners elements
      | None => dispatch runners elements
      end
  end.

(** [options.x !== undefined ? options.x : parseFloat(firstChild.attributes.x)]
    and its like: the option, else the attribute of the root, whose absence
    is the text [undefined] for [parseFloat]; [None] is the [TypeError] of
    reading an attribute of a root that has none. *)
Definition optionOrAttribute (option_ : option float) (firstChild : Node)
    (name : string) : option float :=
  match option_ with
  | Some v => Some v
  | None =>
      attributes ← attributesOf firstChild;
      Some (parseFloat (default "undefined" (attributes !! name)))
  end.

(** The target rectangle of a drawing. *)
Definition targetRectangle (firstChild : Node)
    (options : PDFPageDrawSVGElementOptions) : option Rectangle :=
  x_ ← optionOrAttribute (Options.x options) firstChild "x";
  y_ ← optionOrAttribute (Options.y options) firstChild "y";
  width_ ← optionOrAttribute (Options.width options) firstChild "width";
  height_ ← optionOrAttribute (Options.height options) firstChild "height";
  Some (svgRectOf x_ y_ width_ height_).

(** [drawSvg], from the root of the parsed markup. *)
Definition drawSvg (page : PDFPage) (firstChild : Node)
    (options : PDFPageDrawSVGElementOptions) : Console Drawing :=
  let size_ := getSize page in
  let defaultConverter := defaultConverter (height size_) in
  let thrown := ret {| started := []; completed := false |} in
  match targetRectangle firstChild options with
  | None => thrown
  | Some svgRect =>
      let runners := runnersToPage svgRect page options in
      match parse firstChild options size_ defaultConverter with
      | None => thrown
      | Some parsed =>
          let* elements := parsed in
          ret (dispatch runners elements)
      end
  end.

End Runners.

(** ** A runtime and a geometry to run the model on

    [Sample] gives the two interfaces an executable instance, so that the
    functions above can be evaluated on concrete markup.  The scanners follow
    the regular expressions of the source on the inputs they are run on
    below, and know the white space of ASCII only; numbers are read and
    printed in plain decimal notation, without exponents.  The trigonometric
    functions are short Maclaurin polynomials, exact only at 0.  No theorem
    about the program depends on these choices: they are stated for every
    [Runtime] and every [Geometry]. *)

Module Sample.

Definition code (c : ascii) : nat := nat_of_ascii c.

Definition isDigit (c : ascii) : bool := (48 <=? code c)%nat && (code c <=? 57)%nat.

Definition isUpper (c : ascii) : bool := (65 <=? code c)%nat && (code c <=? 90)%nat.

Definition isLower (c : ascii) : bool := (97 <=? code c)%nat && (code c <=? 122)%nat.

Definition isLetter (c : ascii) : bool := isUpper c || isLower c.

Definition isSpace (c : ascii) : bool :=
  bool_decide (code c ∈ [9; 10; 11; 12; 13; 32]%nat).

Definition isWord (c : ascii) : bool :=
  isDigit c || isLetter c || Ascii.eqb c "_"%char.

(** The longest prefix of characters that satisfy [p], and what follows. *)
Fixpoint span (p : ascii → bool) (s : string) : string * string :=
  match s with
  | EmptyString => ("", "")
  | String c rest =>
      if p c then let '(taken, others) := span p rest in (String c taken, others)
      else ("", s)
  end.

Definition dropSpaces (s : string) : string := (span isSpace s).2.

Definition trim (s : string) : string :=
  String.rev (dropSpaces (String.rev (dropSpaces s))).

Definition lowerChar (c : ascii) : ascii :=
  if isUpper c then ascii_of_nat (code c + 32) else c.

Fixpoint toLowerCase (s : string) : string :=
  match s with
  | EmptyString => ""
  | String c rest => String (lowerChar c) (toLowerCase rest)
  end.

(** A number at the start of [s]: an optional minus, then digits with an
    optional point, or a point, then digits. *)
Definition scanNumber (s : string) : option (string * string) :=
  let '(sign, s1) :=
    match s with
    | String "-" rest => ("-", rest)
    | _ => ("", s)
    end in
  let '(whole, s2) := span isDigit s1 in
  if JS.truthyStr whole then
    let '(dot, s3) :=
      match s2 with
      | String "." rest => (".", rest)
      | _ => ("", s2)
      end in
    let '(fraction, s4) := span isDigit s3 in
    Some (sign +:+ whole +:+ dot +:+ fraction, s4)
  else
    match s1 with
    | String "." rest =>
        let '(fraction, s4) := span isDigit rest in
        Some (sign +:+ "." +:+ fraction, s4)
    | _ => None
    end.

Fixpoint firstNumber (s : string) : option string :=
  match scanNumber s with
  | Some (number, _) => Some number
  | None =>
      match s with
      | EmptyString => None
      | String _ rest => firstNumber rest
      end
  end.

Fixpoint allNumbers_go (fuel : nat) (s : string) : list string :=
  match fuel with
  | O => []
  | S fuel =>
      match scanNumber s with
      | Some (number, rest) => number :: allNumbers_go fuel rest
      | None =>
          match s with
          | EmptyString => []
          | String _ rest => allNumbers_go fuel rest
          end
      end
  end.

Definition allNumbers (s : string) : list string :=
  allNumbers_go (S (String.length s)) s.

(** Decimal digits as a natural number. *)
Definition digitsValue (digits : string) : N :=
  foldl (λ acc c, acc * 10 + N.of_nat (code c - 48))%N 0%N
    (list_ascii_of_string digits).

Definition ofN (n : N) : float := of_uint63 (Uint63.of_Z (Z.of_N n)).

(** [parseFloat] on decimal text: white space, a sign, digits, a point,
    digits; what follows is ignored. *)
Definition parseFloat (text : string) : float :=
  let s := dropSpaces text in
  let '(negative, s1) :=
    match s with
    | String "-" rest => (true, rest)
    | String "+" rest => (false, rest)
    | _ => (false, s)
    end in
  let '(whole, s2) := span isDigit s1 in
  let fraction :=
    match s2 with
    | String "." rest => (span isDigit rest).1
    | _ => ""
    end in
  if negb (JS.truthyStr whole) && negb (JS.truthyStr fraction) then nan
  else
    let magnitude :=
      ofN (digitsValue (whole +:+ fraction))
      / ofN (10 ^ N.of_nat (String.length fraction)) in
    if negative then - magnitude else magnitude.

(** [parseInt(text, 10)]. *)
Definition parseInt10 (text : string) : float :=
  let s := dropSpaces text in
  let '(negative, s1) :=
    match s with
    | String "-" rest => (true, rest)
    | String "+" rest => (false, rest)
    | _ => (false, s)
    end in
  let whole := (span isDigit s1).1 in
  if negb (JS.truthyStr whole) then nan
  else if negative then - ofN (digitsValue whole) else ofN (digitsValue whole).

(** The digits after the point of [r / d], for [r < d]. *)
Fixpoint fractionDigits (fuel : nat) (r d : N) : string :=
  match fuel with
  | O => ""
  | S fuel =>
      if (r =? 0)%N then ""
      else pretty ((r * 10) `div` d)%N +:+ fractionDigits fuel ((r * 10) `mod` d)%N d
  end.

Definition numberToString (v : float) : string :=
  match Prim2SF v with
  | S754_nan => "NaN"
  | S754_infinity negative => if negative then "-Infinity" else "Infinity"
  | S754_zero _ => "0"
  | S754_finite negative m e =>
      let sign := if negative then "-" else "" in
      let n := Npos m in
      if (0 <=? e)%Z then sign +:+ pretty (n * 2 ^ Z.to_N e)%N
      else
        let d := (2 ^ Z.to_N (- e))%N in
        let r := (n `mod` d)%N in
        sign +:+ pretty (n `div` d)%N
          +:+ (if (r =? 0)%N then "" else "." +:+ fractionDigits 30 r d)
  end.

Definition PI : float := 0x1.921fb54442d18p+1.

Definition degreesToRadians (degree : float) : float := (degree * PI) / 180.

Definition Math_cos (a : float) : float :=
  1 - a * a / 2 + a * a * a * a / 24.

Definition Math_sin (a : float) : float :=
  a - a * a * a / 6 + a * a * a * a * a / 120.

Definition Math_tan (a : float) : float := Math_sin a / Math_cos a.

Definition colorString (color : string) : Color * option float :=
  if String.eqb color "red" then (rgb 1 0 0, None)
  else if String.eqb color "green" then (rgb 0 0.5 0, None)
  else if String.eqb color "blue" then (rgb 0 0 1, None)
  else if String.eqb color "white" then (rgb 1 1 1, None)
  else (rgb 0 0 0, None).

(** Text cut at every character that satisfies [p]. *)
Fixpoint splitOn_go (p : ascii → bool) (current : string) (s : string)
  : list string :=
  match s with
  | EmptyString => [String.rev current]
  | String c rest =>
      if p c then String.rev current :: splitOn_go p "" rest
      else splitOn_go p (String c current) rest
  end.

Definition splitOn (p : ascii → bool) (s : string) : list string :=
  splitOn_go p "" s.

(** One match of the style expression at the start of [s]: a run of
    characters that are neither colons nor white space (group 1, missing
    when the run is empty), white space, a colon, white space, and the
    characters up to the next semicolon (group 2), of which there must be
    one; when only white space is left before the semicolon, its last
    character is given back to group 2.  The result is the two groups and
    the text after the match. *)
Definition isNameChar (c : ascii) : bool := negb (isSpace c || Ascii.eqb c ":"%char).

Definition lastChar (s : string) : option ascii := last (list_ascii_of_string s).

Definition matchDeclaration (s : string) : option (option string * string * string) :=
  let '(name, s1) := span isNameChar s in
  let group1 := if JS.truthyStr name then Some name else None in
  match dropSpaces s1 with
  | String ":" s2 =>
      let '(blank, s3) := span isSpace s2 in
      let '(value, rest) := span (λ c, negb (Ascii.eqb c ";"%char)) s3 in
      if JS.truthyStr value then Some (group1, value, rest)
      else (λ c, (group1, String c "", s3)) <$> lastChar blank
  | _ => None
  end.

(** Every match of the style expression: the search for the next match
    starts where the last one ended, and moves on by one character where
    there is none.  A name that follows a semicolon without a blank
    therefore starts with the semicolon. *)
Fixpoint cssRegex_go (fuel : nat) (style : string) : list (option string * string) :=
  match fuel with
  | O => []
  | S fuel =>
      match matchDeclaration style with
      | Some (name, value, rest) => (name, value) :: cssRegex_go fuel rest
      | None =>
          match style with
          | EmptyString => []
          | String _ rest => cssRegex_go fuel rest
          end
      end
  end.

Definition cssRegex (style : string) : list (option string * string) :=
  cssRegex_go (S (String.length style)) style.

(** The instructions [name(args)] of a transform list.  [word] is the run of
    word characters read so far, most recent first; once a name is open,
    [args] collects everything up to the first closing parenthesis that
    leaves it non-empty. *)
Fixpoint regexTransform_go (word : string) (open : option (string * string))
    (s : string) : list (string * string) :=
  match s with
  | EmptyString => []
  | String c rest =>
      match open with
      | Some (name, args) =>
          if Ascii.eqb c ")"%char && JS.truthyStr args
          then (name, String.rev args) :: regexTransform_go "" None rest
          else regexTransform_go "" (Some (name, String c args)) rest
      | None =>
          if isWord c then regexTransform_go (String c word) None rest
          else if Ascii.eqb c "("%char && JS.truthyStr word
          then regexTransform_go "" (Some (String.rev word, "")) rest
          else regexTransform_go "" None rest
      end
  end.

Definition regexTransform (transformList : string) : list (string * string) :=
  regexTransform_go "" None transformList.

(** The arguments of an instruction, cut at commas and white space; the
    caller drops the empty pieces. *)
Definition splitArgs (rawArgs : string) : list string :=
  splitOn (λ c, isSpace c || Ascii.eqb c ","%char) rawArgs.

(** One coordinate pair at the start of [s]: white space, a number, a
    separator (a comma, white space, or nothing in front of a minus), and a
    number.  The result is the text read, the two numbers and the rest. *)
Definition scanPair (s : string) : option (string * (string * string) * string) :=
  let '(lead, s1) := span isSpace s in
  match scanNumber s1 with
  | None => None
  | Some (a, s2) =>
      let separator :=
        match s2 with
        | String "," rest =>
            let '(blank, s3) := span isSpace rest in Some ("," +:+ blank, s3)
        | String "-" _ => Some ("", s2)
        | String c _ => if isSpace c then Some (span isSpace s2) else None
        | EmptyString => None
        end in
      match separator with
      | None => None
      | Some (sep, s3) =>
          match scanNumber s3 with
          | None => None
          | Some (b, s4) => Some (lead +:+ a +:+ sep +:+ b, (a, b), s4)
          end
      end
  end.

Fixpoint coordPairs_go (fuel : nat) (s : string) : list (string * string) :=
  match fuel with
  | O => []
  | S fuel =>
      match scanPair (dropSpaces s) with
      | Some (_, found, rest) => found :: coordPairs_go fuel rest
      | None =>
          match s with
          | EmptyString => []
          | String _ rest => coordPairs_go fuel rest
          end
      end
  end.

Definition coordPairs (coords : string) : list (string * string) :=
  coordPairs_go (S (String.length coords)) coords.

(** As many pairs as follow one another at the start of [s]. *)
Fixpoint scanPairs (fuel : nat) (s : string) : string * string :=
  match fuel with
  | O => ("", s)
  | S fuel =>
      match scanPair s with
      | Some (read, _, rest) =>
          let '(more, rest') := scanPairs fuel rest in (read +:+ more, rest')
      | None => ("", s)
      end
  end.

(** [d.replace(regex, fn)] for a command and what [scan] reads after its
    letter: every match is replaced by what [fn] makes of it. *)
Fixpoint replace_go (fuel : nat) (letters : string)
    (scan : string → string * string) (fn : string → string) (d : string)
  : string :=
  match fuel, d with
  | O, _ => d
  | _, EmptyString => ""
  | S fuel, String c rest =>
      if bool_decide (lowerChar c ∈ list_ascii_of_string letters) then
        let '(read, rest') := scan rest in
        if JS.truthyStr read
        then fn (String c read) +:+ replace_go fuel letters scan fn rest'
        else String c (replace_go fuel letters scan fn rest)
      else String c (replace_go fuel letters scan fn rest)
  end.

Definition replaceCoords (d : string) (fn : string → string) : string :=
  replace_go (S (String.length d)) "ltmqc" (λ s, scanPairs (String.length s) s) fn d.

(** The number of a [v] or [h] command, with the white space before it. *)
Definition scanOne (s : string) : string * string :=
  let '(lead, s1) := span isSpace s in
  match scanNumber s1 with
  | Some (a, rest) => (lead +:+ a, rest)
  | None => ("", s)
  end.

Definition replaceVH (d : string) (fn : string → string) : string :=
  replace_go (S (String.length d)) "vh" scanOne fn d.

(** Up to [count] numbers of an arc, each with the separator that follows
    it: a comma, white space, nothing before a minus or at the end, or one
    character that is no digit. *)
Fixpoint scanArc (count : nat) (s : string) : string * string :=
  match count with
  | O => ("", s)
  | S count =>
      match scanNumber s with
      | None => ("", s)
      | Some (a, s1) =>
          let '(sep, s2) :=
            match s1 with
            | String "," rest =>
                let '(blank, s3) := span isSpace rest in ("," +:+ blank, s3)
            | String "-" _ => ("", s1)
            | String c rest =>
                if isSpace c then span isSpace s1 else (String c "", rest)
            | EmptyString => ("", s1)
            end in
          let '(more, rest') := scanArc count s2 in
          (a +:+ sep +:+ more, rest')
      end
  end.

Definition replaceArc (d : string) (fn : string → string) : string :=
  replace_go (S (String.length d)) "a"
    (λ s, let '(lead, s1) := span isSpace s in
          let '(read, rest) := scanArc 7 s1 in
          if JS.truthyStr read then (lead +:+ read, rest) else ("", s))
    fn d.

Definition quote : ascii := ascii_of_nat 34.

Definition apostrophe : ascii := ascii_of_nat 39.

(** The text between the quote a font family starts with and the next one. *)
Definition fontFamilyInner (family : string) : option (option string) :=
  match family with
  | String c rest =>
      if Ascii.eqb c quote || Ascii.eqb c apostrophe then
        let '(inner, after) := span (λ k, negb (Ascii.eqb k c)) rest in
        match after with
        | String _ _ => Some (if JS.truthyStr inner then Some inner else None)
        | EmptyString => None
        end
      else None
  | EmptyString => None
  end.

Definition isCommandLetter (c : ascii) : bool :=
  bool_decide (lowerChar c ∈ list_ascii_of_string "vhaltmqc").

Definition isParamChar (c : ascii) : bool :=
  isDigit c || isSpace c
  || bool_decide (lowerChar c ∈ list_ascii_of_string ",e.-").

Fixpoint pathCommands_go (fuel : nat) (d : string) : list string :=
  match fuel, d with
  | O, _ => []
  | _, EmptyString => []
  | S fuel, String c rest =>
      if isCommandLetter c then
        let '(params, rest') := span isParamChar rest in
        String c params :: pathCommands_go fuel rest'
      else pathCommands_go fuel rest
  end.

Definition pathCommands (d : string) : option (list string) :=
  match pathCommands_go (S (String.length d)) d with
  | [] => None
  | commands => Some commands
  end.

Fixpoint firstLetter (command : string) : option string :=
  match command with
  | EmptyString => None
  | String c rest => if isLetter c then Some (String c "") else firstLetter rest
  end.

(** The runs of digits, [e], points and minus signs of a command; the empty
    runs, which the caller filters out, are left out. *)
Definition numberRuns (command : string) : option (list string) :=
  Some
    (filter (λ run, run ≠ "")
       (splitOn
          (λ c, negb (isDigit c
                      || bool_decide (lowerChar c ∈ list_ascii_of_string "e.-")))
          command)).

(** The enumerations count from 0: [Butt] and [Miter] come first. *)
Definition capTruthy (v : LineCapStyle.t) : bool :=
  match v with
  | LineCapStyle.Butt => false
  | _ => true
  end.

Definition joinTruthy (v : LineJoinStyle.t) : bool :=
  match v with
  | LineJoinStyle.Miter => false
  | _ => true
  end.

(** Geometry for a target rectangle with sides parallel to the axes, given
    by two opposite corners. *)
Definition tolerance : float := 0.00000095367431640625.

Definition isEqual (a b : float) : bool := abs (a - b) <? tolerance.

Definition distance (p q : Point) : float :=
  sqrt ((x p - x q) * (x p - x q) + (y p - y q) * (y p - y q)).

Definition lowest (a b : float) : float := if a <? b then a else b.

Definition highest (a b : float) : float := if a <? b then b else a.

Definition clamp (lo hi v : float) : float :=
  if v <? lo then lo else if hi <? v then hi else v.

Definition orthoProjection (rect : Rectangle) (p : Point) : Point :=
  {| x := clamp (lowest (x (start rect)) (x (end_ rect)))
            (highest (x (start rect)) (x (end_ rect))) (x p);
     y := clamp (lowest (y (start rect)) (y (end_ rect)))
            (highest (y (start rect)) (y (end_ rect))) (y p) |}.

(** Where the segment meets the line [x = c], if that is between [lo] and
    [hi] on the other axis. *)
Definition crossVertical (c lo hi : float) (s : Segment) : list Point :=
  let dx := x (B s) - x (A s) in
  if is_zero dx then []
  else
    let t := (c - x (A s)) / dx in
    let yi := y (A s) + t * (y (B s) - y (A s)) in
    if (0 <=? t) && (t <=? 1) && (lo <=? yi) && (yi <=? hi)
    then [{| x := c; y := yi |}] else [].

Definition crossHorizontal (c lo hi : float) (s : Segment) : list Point :=
  let dy := y (B s) - y (A s) in
  if is_zero dy then []
  else
    let t := (c - y (A s)) / dy in
    let xi := x (A s) + t * (x (B s) - x (A s)) in
    if (0 <=? t) && (t <=? 1) && (lo <=? xi) && (xi <=? hi)
    then [{| x := xi; y := c |}] else [].

Definition getIntersections (rect : Rectangle) (s : Segment) : list Point :=
  let x0 := lowest (x (start rect)) (x (end_ rect)) in
  let x1 := highest (x (start rect)) (x (end_ rect)) in
  let y0 := lowest (y (start rect)) (y (end_ rect)) in
  let y1 := highest (y (start rect)) (y (end_ rect)) in
  crossVertical x0 y0 y1 s ++ crossVertical x1 y0 y1 s
    ++ crossHorizontal y0 x0 x1 s ++ crossHorizontal y1 x0 x1 s.

Definition Point_isEqual (p q : Point) : bool :=
  isEqual (x p) (x q) && isEqual (y p) (y q).

End Sample.

Definition sampleRuntime : Runtime :=
  Build_Runtime Sample.Math_cos Sample.Math_sin Sample.Math_tan
    Sample.degreesToRadians Sample.numberToString Sample.parseFloat
    Sample.parseInt10 Sample.toLowerCase Sample.trim Sample.colorString
    Sample.cssRegex Sample.firstNumber Sample.allNumbers Sample.regexTransform
    Sample.splitArgs Sample.replaceVH Sample.replaceArc Sample.replaceCoords
    Sample.coordPairs Sample.fontFamilyInner Sample.pathCommands
    Sample.firstLetter Sample.numberRuns Sample.capTruthy Sample.joinTruthy.

Definition sampleGeometry : Geometry :=
  Build_Geometry Sample.isEqual Sample.distance Sample.distance
    Sample.orthoProjection Sample.getIntersections Sample.Point_isEqual.

(** A page of 100 by 100 whose embedded images are 40 by 20; an image
    without a source cannot be embedded. *)
Definition samplePage : PDFPage :=
  {| getSize := {| width := 100; height := 100 |};
     embedPng := λ src,
       if given src then Some {| width := 40; height := 20 |} else None |}.

(** The options that place a drawing of the given size with its top left
    corner at the given point of the page. *)
Definition placedAt (x_ y_ width_ height_ : float) : PDFPageDrawSVGElementOptions :=
  {| Options.width := Some width_; Options.height := Some height_;
     Options.x := Some x_; Options.y := Some y_;
     Options.fontSize := None; Options.fonts := None |}.

(** ** The notions the statements below are phrased with *)

(** [r] is the first candidate of [l] at the least distance: no candidate is
    nearer than [r], and every candidate before [r] is farther. *)
Definition firstNearest (key : Point → float) (l : list Point) (r : Point) : Prop :=
  ∃ l1 l2,
    l = l1 ++ r :: l2
    ∧ (∀ q, q ∈ l → (key q <? key r) = false)
    ∧ (∀ q, q ∈ l1 → (key r <? key q) = true).

(** The comparator [key a - key b] is a consistent comparator on [l], which
    is what [sort] asks of it: its sign tells which key is smaller, and
    "smaller" is a strict weak order on the keys of [l]. *)
Definition consistentComparator (key : Point → float) (l : list Point) : Prop :=
  (∀ a b, a ∈ l → b ∈ l → (0 <? key a - key b) = (key b <? key a))
  ∧ (∀ a b, a ∈ l → b ∈ l → (key a <? key b) = true → (key b <? key a) = false)
  ∧ (∀ a b c, a ∈ l → b ∈ l → c ∈ l →
       (key a <? key b) = false → (key b <? key c) = false → (key a <? key c) = false).

(** The instruction names [transform] knows. *)
Definition supportedTransforms : list string :=
  ["scaleX"; "scaleY"; "scale"; "translateX"; "translateY"; "translate";
   "rotate"; "skewX"; "skewY"].

(** The [preserveAspectRatio] tokens [getFittingRectangle] tells apart. *)
Definition alignmentTokens : list string :=
  ["xMinYMin"; "xMidYMin"; "xMaxYMin"; "xMinYMid"; "xMidYMid"; "xMaxYMid";
   "xMinYMax"; "xMidYMax"; "xMaxYMax"].

(** The offset of an alignment token as the specification words it: along
    each axis none of the free space for [Min], half of it for [Mid], all of
    it for [Max]. *)
Definition alignedOffset (xAlign yAlign : string) (dx dy : float) : float * float :=
  let along align free :=
    if String.eqb align "Min" then 0
    else if String.eqb align "Mid" then free / 2
    else free in
  (along xAlign dx, along yAlign dy).

(** The fitted rectangle of the specification for the token
    [x<xAlign>Y<yAlign>]: the contained size of the source, at the aligned
    offset. *)
Definition alignedRectangle
    (originalWidth originalHeight targetWidth targetHeight : float)
    (xAlign yAlign : string) : Box :=
  let originalRatio := originalWidth / originalHeight in
  let targetRatio := targetWidth / targetHeight in
  let width :=
    if originalRatio <? targetRatio then originalRatio * targetHeight
    else targetWidth in
  let height :=
    if originalRatio <=? targetRatio then targetHeight
    else targetWidth / originalRatio in
  let offset :=
    alignedOffset xAlign yAlign (targetWidth - width) (targetHeight - height) in
  {| box_x := offset.1; box_y := offset.2; box_width := width; box_height := height |}.







(** The stroke width the specification gives: the smaller side of the
    converted width, at least one. *)
Definition clampedStrokeWidth (newConverter : SVGSizeConverter) (w : float) : float :=
  let converted := size newConverter w w in
  JS.Math_max
    (JS.Math_min (JS.Math_abs (width converted)) (JS.Math_abs (height converted)))
    1.

(** The tags of the drawable elements of a tree, in document order: a
    comment or a text gives none, a group ([g] or [svg]) gives those of its
    children, any other element gives its own tag and nothing for what is
    below it. *)
Fixpoint leafTags (node : Node) : list string :=
  match node with
  | COMMENT_NODE _ => []
  | TEXT_NODE _ => []
  | ELEMENT_NODE tagName _ childNodes =>
      if String.eqb tagName "g" || String.eqb tagName "svg"
      then flat_map leafTags childNodes
      else [tagName]
  end.

(** The tags the dispatcher has a runner of its own for. *)
Definition knownTags : list string :=
  ["text"; "line"; "path"; "image"; "rect"; "ellipse"; "circle"].

(** The tags at which [drawSvg] stops: the inherited members that cannot be
    called like a runner. *)
Definition stoppingTag (tag : string) : bool := JS.inherited_call_throws tag.

(** The elements [drawSvg] gets to: those before the first one with a
    stopping tag. *)
Fixpoint reached (elements : list SVGElement) : list SVGElement :=
  match elements with
  | [] => []
  | elt :: elements =>
      if stoppingTag (tagName elt) then [] else elt :: reached elements
  end.

(** The calls on the page behind an outcome. *)
Definition callsOf (outcome : Outcome) : list DrawCall :=
  match outcome with
  | Done calls => calls
  | _ => []
  end.

(** What the runner of an element did, for an element whose tag has a
    runner. *)
Definition runnerOutcome `{Geometry} `{Runtime} (svgRect : Rectangle)
    (page : PDFPage) (options : PDFPageDrawSVGElementOptions) (elt : SVGElement)
  : option Outcome :=
  (λ runner, runner elt) <$> runnersToPage svgRect page options (tagName elt).

(** The instructions whose size mapping is that of the converter they are
    composed onto. *)
Definition sizeKeeping : list string :=
  ["translate"; "translateX"; "translateY"; "skewX"; "skewY"].

(** The console line of an instruction name. *)
Definition unsupportedLine (name : string) : string :=
  "transformation unsupported: " +:+ name.

(** The values of a colour attribute that give no paint of their own. *)
Definition noPaint : list (option string) :=
  [None; Some ""; Some "none"; Some "transparent"].

(** The attributes from which [parseAttributes] builds the converter. *)
Definition converterAttributes : list string :=
  ["transform"; "x"; "y"; "viewBox"; "translate"; "translateX"; "translateY";
   "skewX"; "skewY"; "rotate"; "scale"; "scaleX"; "scaleY"].

(** Membership in a list that is written out: one case for each element. *)
Ltac each_member :=
  repeat match goal with
    | H : _ ∈ _ :: _ |- _ => apply elem_of_cons in H as [->|H]
    | H : _ ∈ [] |- _ => by apply elem_of_nil in H
    end.


(** One case for each tag a chain of comparisons tests. *)
Ltac case_tag tag :=
  match goal with
  | |- context [String.eqb tag ?known] =>
      destruct (String.eqb_spec tag known) as [->|?]
  end.

(** * Properties *)

(** ** Records *)

Lemma new_Point_id (p : Position) : new_Point p = p.
Proof. by destruct p. Qed.

(** ** [Array.prototype.sort] *)

Section SortFacts.
Context {T : Type} (comparefn : T → T → float).

Lemma insert_sorted_perm (a : T) (l : list T) :
  JS.insert_sorted comparefn a l ≡ₚ a :: l.
Proof.
  induction l as [|b l IH]; simpl; [done|].
  destruct (0 <? comparefn a b); [|done].
  rewrite IH. apply Permutation_swap.
Qed.

Lemma sort_perm (l : list T) : JS.sort comparefn l ≡ₚ l.
Proof.
  induction l as [|a l IH]; simpl; [done|].
  unfold JS.sort in *. simpl. by rewrite insert_sorted_perm, IH.
Qed.

Lemma head_sort_cons (a : T) (l : list T) :
  head (JS.sort comparefn (a :: l)) =
    match head (JS.sort comparefn l) with
    | Some b => if 0 <? comparefn a b then Some b else Some a
    | None => Some a
    end.
Proof.
  unfold JS.sort. simpl. destruct (foldr _ _ l) as [|b t]; simpl; [done|].
  by destruct (0 <? comparefn a b).
Qed.

End SortFacts.

Lemma consistentComparator_perm key l l' :
  l ≡ₚ l' → consistentComparator key l → consistentComparator key l'.
Proof.
  intros Hp (Hsign & Hasym & Htrans).
  repeat split; intros; rewrite <- ?Hp in *; eauto.
Qed.

Lemma consistentComparator_tail key a l :
  consistentComparator key (a :: l) → consistentComparator key l.
Proof.
  intros (Hsign & Hasym & Htrans).
  repeat split; intros; eauto using list_elem_of_further.
Qed.

Lemma consistentComparator_irrefl key l a :
  consistentComparator key l → a ∈ l → (key a <? key a) = false.
Proof.
  intros (_ & Hasym & _) Ha.
  destruct (key a <? key a) eqn:E; [|done]. by rewrite (Hasym a a Ha Ha E) in E.
Qed.

(** The head of the sorted array is the first nearest candidate. *)
Lemma head_sort_firstNearest key (l : list Point) :
  l ≠ [] → consistentComparator key l →
  ∃ r, head (JS.sort (λ p1 p2, key p1 - key p2) l) = Some r ∧ firstNearest key l r.
Proof.
  induction l as [|a l IH]; [done|]. intros _ Hc.
  rewrite head_sort_cons.
  destruct l as [|b l'].
  - exists a. split; [done|]. exists [], []. split; [done|]. split.
    + intros q ->%list_elem_of_singleton.
      eapply consistentComparator_irrefl; [done|]. apply list_elem_of_here.
    + intros q Hq. by apply elem_of_nil in Hq.
  - destruct IH as (h & -> & l1 & l2 & Hl & Hmin & Hbefore);
      [done|by eapply consistentComparator_tail|].
    assert (h ∈ a :: b :: l') as Hh.
    { apply list_elem_of_further. rewrite Hl, elem_of_app, elem_of_cons. auto. }
    assert (a ∈ a :: b :: l') as Ha by apply list_elem_of_here.
    destruct Hc as (Hsign & Hasym & Htrans).
    rewrite (Hsign a h Ha Hh).
    destruct (key h <? key a) eqn:E.
    + exists h. split; [done|]. exists (a :: l1), l2.
      split; [by rewrite Hl|]. split.
      * intros q [->|Hq]%elem_of_cons; [by apply Hasym|by apply Hmin].
      * intros q [->|Hq]%elem_of_cons; [done|by apply Hbefore].
    + exists a. split; [done|]. exists [], (b :: l').
      split; [done|]. split.
      * intros q [->|Hq]%elem_of_cons.
        -- destruct (key a <? key a) eqn:E'; [|done].
           by rewrite (Hasym a a Ha Ha E') in E'.
        -- apply (Htrans q h a); [by apply list_elem_of_further|done|done| |done].
           by apply Hmin.
      * intros q Hq. by apply elem_of_nil in Hq.
Qed.

(** ** The clipper *)

(** C1. For every rectangle and every segment, if both endpoints are inside
    the rectangle (the distance of each to its orthogonal projection equals
    zero) then [getInnerSegment] returns the segment unchanged; and if an
    endpoint is outside and the segment has no intersection with the
    rectangle, then [getInnerSegment] returns nothing and the [line] runner
    makes no call on the page. *)
Theorem getInnerSegment_inside_or_disjoint `{Geometry}
    (start end_ : Point) (rect : Rectangle) :
  (isCoordinateInsideTheRect start rect = true →
   isCoordinateInsideTheRect end_ rect = true →
   getInnerSegment start end_ rect = Some (new_Segment start end_))
  ∧ (isCoordinateInsideTheRect end_ rect && isCoordinateInsideTheRect start rect = false →
     getIntersections rect (new_Segment start end_) = [] →
     getInnerSegment start end_ rect = None
     ∧ ∀ element,
         start = {| x := JS.toNumber (SVGAttributes.x1 (own element));
                    y := JS.toNumber (SVGAttributes.y1 (own element)) |} →
         end_ = {| x := JS.toNumber (SVGAttributes.x2 (own element));
                   y := JS.toNumber (SVGAttributes.y2 (own element)) |} →
         line rect element = Done []).
Proof.
  split.
  - intros Hstart Hend. unfold getInnerSegment. by rewrite Hstart, Hend.
  - intros Hout Hnone.
    assert (getInnerSegment start end_ rect = None) as Habsent.
    { unfold getInnerSegment. by rewrite Hout, Hnone. }
    split; [done|]. intros element -> ->. unfold line. by rewrite Habsent.
Qed.

Lemma getInnerSegment_inside_or_disjoint_witness :
  getInnerSegment (H := sampleGeometry) (mkPosition 10 10) (mkPosition 20 20)
    (svgRectOf 0 100 100 100)
  = Some (new_Segment (mkPosition 10 10) (mkPosition 20 20))
  ∧ getInnerSegment (H := sampleGeometry) (mkPosition (-10) 210) (mkPosition 200 210)
      (svgRectOf 0 100 100 100)
    = None.
Proof.
  split.
  - apply (getInnerSegment_inside_or_disjoint (H := sampleGeometry));
      vm_compute; reflexivity.
  - apply (getInnerSegment_inside_or_disjoint (H := sampleGeometry));
      vm_compute; reflexivity.
Defined.

(** C2. For every rectangle and every segment with an endpoint outside and
    at least one intersection with the rectangle, [getInnerSegment] returns a
    segment in which each inside endpoint is kept and each outside endpoint
    is the first nearest intersection, in the order the array has when that
    endpoint is handled: the order of [getIntersections] for the start, and
    the order the sort for the start left for the end.  With one
    intersection only, each outside endpoint is that intersection. *)
Theorem getInnerSegment_nearest_intersection `{Geometry}
    (start end_ : Point) (rect : Rectangle) :
  let intersection := getIntersections rect (new_Segment start end_) in
  let isStartInside := isCoordinateInsideTheRect start rect in
  let isEndInside := isCoordinateInsideTheRect end_ rect in
  let seen :=
    if isStartInside then intersection
    else JS.sort (λ p1 p2, distanceCoords start p1 - distanceCoords start p2)
           intersection in
  isEndInside && isStartInside = false →
  intersection ≠ [] →
  (consistentComparator (distanceCoords start) intersection →
   consistentComparator (distanceCoords end_) intersection →
   ∃ a b,
     getInnerSegment start end_ rect = Some (new_Segment a b)
     ∧ (if isStartInside then a = start
        else firstNearest (distanceCoords start) intersection a)
     ∧ (if isEndInside then b = end_
        else firstNearest (distanceCoords end_) seen b))
  ∧ (∀ p, intersection = [p] →
       getInnerSegment start end_ rect
       = Some (new_Segment (if isStartInside then start else p)
                 (if isEndInside then end_ else p))).
Proof.
  intros intersection isStartInside isEndInside seen Hout Hsome.
  assert (Nat.eqb (length intersection) 0 = false) as Hlen.
  { destruct intersection; [done|reflexivity]. }
  split.
  - intros Hcs Hce.
    assert (seen ≡ₚ intersection) as Hperm.
    { unfold seen. destruct isStartInside; [done|apply sort_perm]. }
    assert (seen ≠ []) as Hseen.
    { intros E. rewrite E in Hperm. symmetry in Hperm.
      by apply Permutation_nil_r in Hperm. }
    destruct (head_sort_firstNearest (distanceCoords start) intersection Hsome Hcs)
      as (a & Ha & Hna).
    destruct (head_sort_firstNearest (distanceCoords end_) seen Hseen) as (b & Hb & Hnb).
    { eapply consistentComparator_perm; [|exact Hce]. by symmetry. }
    exists (if isStartInside then start else a), (if isEndInside then end_ else b).
    split; [|split].
    + unfold getInnerSegment.
      fold isStartInside isEndInside intersection. rewrite Hout, Hlen.
      unfold seen in Hb. unfold nearestPoint.
      destruct isStartInside, isEndInside; simpl in *; try done.
      * by rewrite Hb; simpl; rewrite new_Point_id.
      * by rewrite Ha; simpl; rewrite new_Point_id.
      * by rewrite Ha, Hb; simpl; rewrite !new_Point_id.
    + by destruct isStartInside.
    + by destruct isEndInside.
  - intros p Hp. unfold getInnerSegment.
    fold isStartInside isEndInside intersection. rewrite Hout, Hlen, Hp.
    unfold nearestPoint.
    destruct isStartInside, isEndInside; simpl in *; try done;
      by rewrite ?new_Point_id.
Qed.

Lemma getInnerSegment_nearest_intersection_witness :
  ∃ a b,
    getInnerSegment (H := sampleGeometry) (mkPosition (-10) 10) (mkPosition 200 10)
      (svgRectOf 0 100 100 100)
    = Some (new_Segment a b)
    ∧ firstNearest (Sample.distance (mkPosition (-10) 10))
        [mkPosition 0 10; mkPosition 100 10] a
    ∧ firstNearest (Sample.distance (mkPosition 200 10))
        [mkPosition 0 10; mkPosition 100 10] b.
Proof.
  assert (getIntersections (Geometry := sampleGeometry) (svgRectOf 0 100 100 100)
            (new_Segment (mkPosition (-10) 10) (mkPosition 200 10))
          = [mkPosition 0 10; mkPosition 100 10]) as Hints
    by (vm_compute; reflexivity).
  pose proof (getInnerSegment_nearest_intersection (H := sampleGeometry)
                (mkPosition (-10) 10) (mkPosition 200 10) (svgRectOf 0 100 100 100))
    as Hclip.
  cbv zeta in Hclip. rewrite Hints in Hclip.
  destruct Hclip as [Hnear _]; [vm_compute; reflexivity|done|].
  destruct Hnear as (a & b & Hseg & Ha & Hb).
  - repeat split; intros; each_member; vm_compute in *; congruence.
  - repeat split; intros; each_member; vm_compute in *; congruence.
  - exists a, b. split; [exact Hseg|]. split; [exact Ha|exact Hb].
Defined.

(** ** The path rewriter *)

(** C3. For every [l] or [L] command, whatever the clipper makes of its
    segment (absent, unchanged, or shortened at the start, at the end or at
    both), the point [handlePath] hands back for the next command is the
    end point of the command before clipping: the current point (for [l]) or
    the origin of the path (for [L]) moved by the two parameters.  The text
    it emits is a move to that end point when the segment is absent, and
    otherwise a line to the end of the clipped segment, after a move to its
    start when the start was moved, and before a move to the original end
    point when the end was moved. *)
Theorem handlePath_line_point `{Geometry} `{Runtime}
    (svgRect : Rectangle) (basePoint currentPoint : Point)
    (command : string) (params : list float) :
  command = "l" ∨ command = "L" →
  let nextPoint :=
    {| x := (if String.eqb command "l" then x currentPoint else x basePoint)
            + arg params 0;
       y := (if String.eqb command "l" then y currentPoint else y basePoint)
            + arg params 1 |} in
  let moveToNext :=
    if String.eqb command "l"
    then "M" +:+ numberToString (x nextPoint - x basePoint) +:+ ","
           +:+ numberToString (y nextPoint - y basePoint)
    else "M" +:+ tpl (params !! 0%nat) +:+ "," +:+ tpl (params !! 1%nat) in
  let step := handlePath svgRect basePoint currentPoint command params in
  step_point step = nextPoint
  ∧ match getInnerSegment currentPoint nextPoint svgRect with
    | None => step_command step = moveToNext
    | Some result =>
        let lead :=
          if Point_isEqual (A result) currentPoint then ""
          else "M" +:+ numberToString (x (A result) - x basePoint) +:+ ","
                 +:+ numberToString (y (A result) - y basePoint) in
        let trail := if Point_isEqual (B result) nextPoint then "" else moveToNext in
        step_command step
        = lead +:+ " L" +:+ numberToString (x (B result) - x basePoint) +:+ ","
            +:+ numberToString (y (B result) - y basePoint) +:+ " " +:+ trail +:+ " "
    end.
Proof.
  intros Hcommand nextPoint moveToNext step.
  assert ({| x := x currentPoint; y := y currentPoint |} = currentPoint) as Hcurrent
    by by destruct currentPoint.
  unfold step, handlePath.
  destruct Hcommand as [-> | ->]; simpl; rewrite Hcurrent;
    fold nextPoint; destruct (getInnerSegment _ _ _) as [[a b]|]; done.
Qed.

Lemma handlePath_line_point_witness :
  step_point
    (handlePath (H := sampleGeometry) (H0 := sampleRuntime)
       (svgRectOf 0 100 100 100) (mkPosition 0 100) (mkPosition 10 10) "l" [200; 0])
  = mkPosition 210 10
  ∧ B <$> getInnerSegment (H := sampleGeometry) (mkPosition 10 10) (mkPosition 210 10)
            (svgRectOf 0 100 100 100)
    = Some (mkPosition 100 10).
Proof.
  split.
  - pose proof (handlePath_line_point (H := sampleGeometry) (H0 := sampleRuntime)
                  (svgRectOf 0 100 100 100) (mkPosition 0 100) (mkPosition 10 10)
                  "l" [200; 0]) as Hstep.
    destruct Hstep as [-> _]; [by left|]. vm_compute. reflexivity.
  - vm_compute. reflexivity.
Defined.

(** ** The transform composer *)

(** The source's calls of [transform] on itself. *)
Lemma transform_scale `{Runtime} converter args :
  transform converter "scale" args = ret (scale converter args).
Proof. reflexivity. Qed.

Lemma transform_translate `{Runtime} converter args :
  transform converter "translate" args = ret (translate converter args).
Proof. reflexivity. Qed.

Lemma transform_rotate `{Runtime} converter a :
  transform converter "rotate" [a] = ret (rotate converter [a]).
Proof. reflexivity. Qed.

Lemma transform_shorthands `{Runtime} converter args :
  transform converter "scaleX" args = transform converter "scale" [arg args 0; 0]
  ∧ transform converter "scaleY" args
    = transform converter "scale" (0 :: option_list (args !! 0%nat))
  ∧ transform converter "translateX" args
    = transform converter "translate" [arg args 0; 0]
  ∧ transform converter "translateY" args
    = transform converter "translate" (0 :: option_list (args !! 0%nat)).
Proof. by repeat split. Qed.

(** C4. For every converter, angle and centre, [rotate] with a centre is
    [translate] by minus the centre, then [rotate] by the angle, then
    [translate] by the centre, each composed onto the result of the one
    before, the second coordinate of the centre being the first one when it
    is not given; a point therefore reaches the converter moved by the
    centre, turned, and moved back by minus the centre, and a size reaches it
    turned.  [rotate] with an angle only feeds both the point and the size
    mapping of the converter with the input turned by the rotation matrix of
    the angle in radians.  Nothing is logged. *)
Theorem transform_rotate_centre `{Runtime}
    (converter : SVGSizeConverter) (a cx cy : float) (more : list float) :
  let angle := degreesToRadians a in
  let turned :=
    {| point := λ x y,
         point converter
           (x * Math_cos angle - y * Math_sin angle)
           (y * Math_cos angle + x * Math_sin angle);
       size := λ w h,
         size converter
           (w * Math_cos angle - h * Math_sin angle)
           (h * Math_cos angle + w * Math_sin angle) |} in
  let about (cx cy : float) :=
    {| point := λ x y,
         point converter
           ((x + cx) * Math_cos angle - (y + cy) * Math_sin angle + - cx)
           ((y + cy) * Math_cos angle + (x + cx) * Math_sin angle + - cy);
       size := size turned |} in
  transform converter "rotate" (a :: cx :: cy :: more)
  = (let* moved := transform converter "translate" [- cx; - cy] in
     let* turned := transform moved "rotate" [a] in
     transform turned "translate" [cx; cy])
  ∧ transform converter "rotate" [a; cx]
    = (let* moved := transform converter "translate" [- cx; - cx] in
       let* turned := transform moved "rotate" [a] in
       transform turned "translate" [cx; cx])
  ∧ transform converter "rotate" (a :: cx :: cy :: more) = ret (about cx cy)
  ∧ transform converter "rotate" [a; cx] = ret (about cx cx)
  ∧ transform converter "rotate" [a] = ret turned.
Proof. by repeat split. Qed.

(** C8. For every instruction name that [transform] does not know, every
    converter and every list of arguments, [transform] returns the converter
    it was given and writes one line to the console. *)
Theorem transform_unsupported `{Runtime}
    (converter : SVGSizeConverter) (name : string) (args : list float) :
  name ∉ supportedTransforms →
  transform converter name args
  = (["transformation unsupported: " +:+ name], converter).
Proof.
  intros Hname.
  assert (∀ known, known ∈ supportedTransforms → String.eqb name known = false)
    as Hne.
  { intros known Hknown. apply String.eqb_neq. by intros ->. }
  unfold transform.
  repeat (rewrite Hne by (unfold supportedTransforms; set_solver)).
  reflexivity.
Qed.

Lemma transform_unsupported_witness :
  transform (H := sampleRuntime) (defaultConverter 100) "matrix" [1; 0; 0; 1; 0; 0]
  = (["transformation unsupported: matrix"], defaultConverter 100).
Proof.
  apply (transform_unsupported (H := sampleRuntime)).
  unfold supportedTransforms. intros Hin.
  repeat (apply elem_of_cons in Hin as [Hin|Hin]; [discriminate|]).
  by apply elem_of_nil in Hin.
Defined.

(** ** Aspect-ratio fitting *)

Lemma token_is_not (preserveAspectRatio : option string) (token : string) :
  preserveAspectRatio ≠ Some token →
  bool_decide (preserveAspectRatio = Some token) = false.
Proof. intros. by apply bool_decide_eq_false. Qed.

(** C5. For every intrinsic and target box, fitting with [none] returns the
    target box at the origin; fitting with no token, or with a token that is
    neither [none] nor one of the nine alignment tokens, returns what
    [xMidYMid] returns, which is the contained size centred in the target
    box.  A box of 100 by 50 fitted into 200 by 200 gives (0, 0, 200, 200)
    with [none] and (0, 50, 200, 100) with no token. *)
Theorem getFittingRectangle_none_and_default
    (originalWidth originalHeight targetWidth targetHeight : float) :
  let fit := getFittingRectangle originalWidth originalHeight targetWidth targetHeight in
  fit (Some "none")
  = {| box_x := 0; box_y := 0; box_width := targetWidth; box_height := targetHeight |}
  ∧ (∀ token,
       token ≠ Some "none" →
       (∀ known, known ∈ alignmentTokens → token ≠ Some known) →
       fit token = fit (Some "xMidYMid"))
  ∧ box_x (fit (Some "xMidYMid"))
    = (targetWidth - box_width (fit (Some "xMidYMid"))) / 2
  ∧ box_y (fit (Some "xMidYMid"))
    = (targetHeight - box_height (fit (Some "xMidYMid"))) / 2
  ∧ getFittingRectangle 100 50 200 200 (Some "none")
    = {| box_x := 0; box_y := 0; box_width := 200; box_height := 200 |}
  ∧ getFittingRectangle 100 50 200 200 None
    = {| box_x := 0; box_y := 50; box_width := 200; box_height := 100 |}.
Proof.
  intros fit. split; [reflexivity|]. split; [|by repeat split].
  intros token Hnone Hother. unfold fit, getFittingRectangle.
  rewrite (token_is_not token "none") by done.
  repeat (rewrite (token_is_not token)
            by (apply Hother; unfold alignmentTokens; set_solver)).
  reflexivity.
Qed.

Lemma getFittingRectangle_none_and_default_witness :
  getFittingRectangle 100 50 200 200 (Some "slice")
  = getFittingRectangle 100 50 200 200 (Some "xMidYMid").
Proof.
  pose proof (getFittingRectangle_none_and_default 100 50 200 200) as Hfit.
  destruct Hfit as (_ & Hdefault & _). apply Hdefault; [done|].
  unfold alignmentTokens. intros known Hin.
  repeat (apply elem_of_cons in Hin as [->|Hin]; [discriminate|]).
  by apply elem_of_nil in Hin.
Defined.

(** C6. Seven of the nine alignment tokens place the contained size as the
    specification says, for every intrinsic and target box; [xMaxYMin] and
    [xMinYMid] do not: for a box of 100 by 50 fitted into 200 by 200 the
    source puts [xMaxYMin] at y = 50, where none of the free height (0) is
    specified, and [xMinYMid] at y = 100, where half of it (50) is. *)
Theorem getFittingRectangle_alignment
    (originalWidth originalHeight targetWidth targetHeight : float) :
  let fit := getFittingRectangle originalWidth originalHeight targetWidth targetHeight in
  let aligned := alignedRectangle originalWidth originalHeight targetWidth targetHeight in
  (fit (Some "xMinYMin") = aligned "Min" "Min"
   ∧ fit (Some "xMidYMin") = aligned "Mid" "Min"
   ∧ fit (Some "xMidYMid") = aligned "Mid" "Mid"
   ∧ fit (Some "xMaxYMid") = aligned "Max" "Mid"
   ∧ fit (Some "xMinYMax") = aligned "Min" "Max"
   ∧ fit (Some "xMidYMax") = aligned "Mid" "Max"
   ∧ fit (Some "xMaxYMax") = aligned "Max" "Max")
  ∧ (getFittingRectangle 100 50 200 200 (Some "xMaxYMin")
     = {| box_x := 0; box_y := 50; box_width := 200; box_height := 100 |}
     ∧ alignedRectangle 100 50 200 200 "Max" "Min"
       = {| box_x := 0; box_y := 0; box_width := 200; box_height := 100 |})
  ∧ (getFittingRectangle 100 50 200 200 (Some "xMinYMid")
     = {| box_x := 0; box_y := 100; box_width := 200; box_height := 100 |}
     ∧ alignedRectangle 100 50 200 200 "Min" "Mid"
       = {| box_x := 0; box_y := 50; box_width := 200; box_height := 100 |}).
Proof. by repeat split. Qed.

(** ** The attribute resolver *)

Lemma parseAttributes_result `{Runtime} tagName attributes parent outer :
  (parseAttributes tagName attributes parent outer).2
  = resolveAttributes tagName attributes parent outer
      (composeTransforms outer (transformListOf attributes parent)).2.
Proof.
  unfold parseAttributes, bind, ret.
  by destruct (composeTransforms _ _).
Qed.

Lemma resolveAttributes_strokeWidth `{Runtime}
    tagName attributes parent outer newConverter :
  let resolved := resolveAttributes tagName attributes parent outer newConverter in
  InheritedAttributes.strokeWidth (inherited resolved)
  = resolveStrokeWidth (converter resolved) (cascadedStrokeWidth attributes parent).
Proof. reflexivity. Qed.

Lemma Math_max_one_not_below (m : float) : (JS.Math_max m 1 <? 1) = false.
Proof.
  unfold JS.Math_max.
  destruct (is_nan m || is_nan 1); [reflexivity|].
  destruct (m <? 1) eqn:Hlt; [reflexivity|].
  destruct (1 <? m); [exact Hlt|].
  destruct (JS.is_neg_zero m); [reflexivity|exact Hlt].
Qed.

(** C7, with the guard of the source.  For every element whose cascade gives a
    stroke width that is neither zero nor [NaN], the resolved stroke width
    is the width taken through the size mapping of the element's converter
    and clamped, max(min(|width|, |height|), 1), and it is not below one; a
    stroke width of zero (or [NaN]) is left as the cascade gives it. *)
Theorem parseAttributes_strokeWidth `{Runtime}
    (tagName : string) (attributes : gmap string string)
    (parent : InheritedAttributes.t) (outer : SVGSizeConverter) (w : float) :
  let resolved := (parseAttributes tagName attributes parent outer).2 in
  cascadedStrokeWidth attributes parent = Some w →
  (JS.truthy w = true →
   InheritedAttributes.strokeWidth (inherited resolved)
   = Some (clampedStrokeWidth (converter resolved) w)
   ∧ (clampedStrokeWidth (converter resolved) w <? 1) = false)
  ∧ (JS.truthy w = false →
     InheritedAttributes.strokeWidth (inherited resolved) = Some w).
Proof.
  intros resolved Hcascade. unfold resolved.
  rewrite parseAttributes_result, resolveAttributes_strokeWidth, Hcascade.
  unfold resolveStrokeWidth, clampedStrokeWidth.
  split; intros ->; [|done].
  split; [done|apply Math_max_one_not_below].
Qed.

Lemma parseAttributes_strokeWidth_witness :
  InheritedAttributes.strokeWidth
    (inherited
       (parseAttributes (H := sampleRuntime) "line"
          (list_to_map [("stroke-width", "0.5"); ("transform", "scale(3 4)")])
          (pageAttributes 100 100) (defaultConverter 100)).2)
  = Some 1.5.
Proof.
  pose proof (parseAttributes_strokeWidth (H := sampleRuntime) "line"
                (list_to_map [("stroke-width", "0.5"); ("transform", "scale(3 4)")])
                (pageAttributes 100 100) (defaultConverter 100) 0.5) as Hwidth.
  destruct Hwidth as [Hclamp _]; [vm_compute; reflexivity|].
  destruct Hclamp as [-> _]; [vm_compute; reflexivity|].
  vm_compute. reflexivity.
Defined.

(** The clamp does not reach a stroke width of zero: the element
    [<line stroke-width="0">] resolves a stroke width of 0 from its cascade,
    the clamped width would be 1, and the source leaves 0, which is below
    one. *)
Lemma strokeWidth_zero_not_clamped :
  let attributes : gmap string string := list_to_map [("stroke-width", "0")] in
  let resolved :=
    (parseAttributes (H := sampleRuntime) "line" attributes
       (pageAttributes 100 100) (defaultConverter 100)).2 in
  cascadedStrokeWidth (H := sampleRuntime) attributes (pageAttributes 100 100) = Some 0
  ∧ clampedStrokeWidth (converter resolved) 0 = 1
  ∧ InheritedAttributes.strokeWidth (inherited resolved) = Some 0
  ∧ InheritedAttributes.strokeWidth (inherited resolved)
    ≠ Some (clampedStrokeWidth (converter resolved) 0)
  ∧ (0 <? 1) = true.
Proof.
  cbv zeta. split; [vm_compute; reflexivity|].
  split; [vm_compute; reflexivity|].
  split; [vm_compute; reflexivity|].
  split; [|reflexivity].
  vm_compute. intros Heq. discriminate Heq.
Qed.

(** C9. In the path data [parseAttributes] resolves, the commands [l], [t],
    [m], [q] and [c] are rewritten by [rewriteCoords] with the converter the
    element was given and the image of (0, 0) under it as origin; that
    callback keeps the letter and writes, for every coordinate pair it
    finds, the pair through the size mapping with the second component
    negated when the letter is lower case, and the pair through the point
    mapping, minus the origin and without negation, when it is upper case. *)
Theorem rewriteCoords_relative_absolute `{Runtime}
    (tagName : string) (attributes : gmap string string)
    (parent : InheritedAttributes.t) (outer newConverter : SVGSizeConverter) :
  let origin := point outer 0 0 in
  let read (pair : string * string) :=
    (JS.or_num (parseFloatValue (Some pair.1) (InheritedAttributes.width parent)) 0,
     JS.or_num (parseFloatValue (Some pair.2) (InheritedAttributes.height parent)) 0) in
  let relative pair :=
    let delta := size outer (read pair).1 (read pair).2 in
    numberToString (width delta) +:+ "," +:+ numberToString (- height delta) in
  let absolute pair :=
    let pixel := point outer (read pair).1 (read pair).2 in
    numberToString (x pixel - x origin) +:+ ","
      +:+ numberToString (y pixel - y origin) in
  let callback := rewriteCoords outer parent (x origin) (y origin) in
  (∀ d, attributes !! "d" = Some d → JS.truthyStr d = true →
     SVGAttributes.d
       (parsed_svgAttributes
          (resolveAttributes tagName attributes parent outer newConverter))
     = Some
         (replaceCoords
            (replaceArc
               (replaceVH d (rewriteVH outer (x origin) (y origin)))
               (rewriteArc outer parent (x origin) (y origin)))
            callback))
  ∧ (∀ elt,
       let letter := charAt0 elt in
       (toLowerCase letter = letter →
        callback elt = letter +:+ join " " (relative <$> coordPairs (slice1 elt)))
       ∧ (toLowerCase letter ≠ letter →
          callback elt = letter +:+ join " " (absolute <$> coordPairs (slice1 elt)))).
Proof.
  intros origin read relative absolute callback. split.
  - intros d Hd Hgiven. unfold resolveAttributes. simpl. by rewrite Hd, Hgiven.
  - intros elt letter. unfold callback, rewriteCoords. fold letter.
    split; intros Hcase; do 2 f_equal; apply list_fmap_ext;
      intros i [a b] _; unfold rewritePair.
    + by rewrite Hcase, String.eqb_refl.
    + apply not_eq_sym, String.eqb_neq in Hcase. by rewrite Hcase.
Qed.

Lemma rewriteCoords_relative_absolute_witness :
  rewriteCoords (H := sampleRuntime) (defaultConverter 100) (pageAttributes 100 100)
    0 100 "l10,20 30-40"
  = "l10,-20 30,40"
  ∧ rewriteCoords (H := sampleRuntime) (defaultConverter 100) (pageAttributes 100 100)
      0 100 "L10,20 30-40"
    = "L10,-20 30,40".
Proof.
  pose proof (rewriteCoords_relative_absolute (H := sampleRuntime) "path" ∅
                (pageAttributes 100 100) (defaultConverter 100) (defaultConverter 100))
    as Hpairs.
  destruct Hpairs as [_ Hpairs]. split.
  - destruct (Hpairs "l10,20 30-40") as [Hrelative _].
    etrans; [apply Hrelative; vm_compute; reflexivity|vm_compute; reflexivity].
  - destruct (Hpairs "L10,20 30-40") as [_ Habsolute].
    etrans; [apply Habsolute; vm_compute; discriminate|vm_compute; reflexivity].
Defined.

(** ** Direct transform attributes *)












(** ** Whole drawings *)

(** A red square of side 10 in a drawing of 100 by 100 placed at the origin
    of the page: one rectangle, of width 10 and height -10, filled red and
    without border. *)
Example drawSvg_rect :
  drawSvg (H := sampleGeometry) (H0 := sampleRuntime) samplePage
    (ELEMENT_NODE "svg" ∅
       [ELEMENT_NODE "rect"
          (list_to_map [("width", "10"); ("height", "10"); ("fill", "red")]) []])
    (placedAt 0 0 100 100)
  = ([],
     {| completed := true; started := [Done
        [drawRectangle
           {| DrawRectangle.x := Some 0; DrawRectangle.y := 0;
              DrawRectangle.width := 10; DrawRectangle.height := -10;
              DrawRectangle.borderColor := None; DrawRectangle.borderWidth := None;
              DrawRectangle.borderOpacity := None; DrawRectangle.borderLineCap := None;
              DrawRectangle.color := Some (rgb 1 0 0); DrawRectangle.opacity := None;
              DrawRectangle.xSkew := None; DrawRectangle.ySkew := None;
              DrawRectangle.rotate := None |}]] |}).
Proof. vm_compute. reflexivity. Qed.

(** A line of length 1000 in a drawing of width 50: the line drawn ends at
    the far edge of the target rectangle. *)
Example drawSvg_line_clipped :
  drawSvg (H := sampleGeometry) (H0 := sampleRuntime) samplePage
    (ELEMENT_NODE "svg" ∅
       [ELEMENT_NODE "line"
          (list_to_map [("x1", "0"); ("y1", "0"); ("x2", "1000"); ("y2", "0")]) []])
    (placedAt 0 100 50 100)
  = ([],
     {| completed := true; started := [Done
        [drawLine
           {| DrawLine.start := {| x := 0; y := 100 |};
              DrawLine.end_ := {| x := 50; y := 100 |};
              DrawLine.thickness := None; DrawLine.color := None;
              DrawLine.opacity := None; DrawLine.lineCap := None |}]] |}).
Proof. vm_compute. reflexivity. Qed.

(** A path that leaves the target rectangle: the pen is lifted where the
    line crosses the edge, and put down again at the end of each command.
    An unknown tag and a comment draw nothing, and an unknown transform is
    reported on the console. *)
Example drawSvg_path_clipped :
  drawSvg (H := sampleGeometry) (H0 := sampleRuntime) samplePage
    (ELEMENT_NODE "svg" ∅
       [ELEMENT_NODE "path"
          (list_to_map [("d", "M10,10 l200,0 l0,10"); ("transform", "matrix(1 0 0 1 0 0)")])
          [];
        ELEMENT_NODE "title" ∅ [TEXT_NODE "a"];
        COMMENT_NODE "a note"])
    (placedAt 0 100 50 100)
  = (["transformation unsupported: matrix"],
     {| completed := true; started := [Done
        [drawSvgPath (Some "M10,-10  L50,-10 M210,-10  M210,-20")
           {| DrawSvgPath.x := 0; DrawSvgPath.y := 100;
              DrawSvgPath.borderColor := None; DrawSvgPath.borderWidth := None;
              DrawSvgPath.borderOpacity := None; DrawSvgPath.borderLineCap := None;
              DrawSvgPath.color := None; DrawSvgPath.opacity := None;
              DrawSvgPath.scale := None; DrawSvgPath.rotate := None |}]] |}).
Proof. vm_compute. reflexivity. Qed.

(** * Further properties of the source *)

(** ** The clipper, whatever the comparator does *)

Lemma nearestPoint_member (from : Point) (sorted : list Point) :
  sorted ≠ [] → nearestPoint from sorted ∈ sorted.
Proof.
  destruct sorted as [|p rest]; [done|]. intros _.
  unfold nearestPoint. simpl. rewrite new_Point_id. apply list_elem_of_here.
Qed.

Lemma toCoords_same (p : Point) : toCoords p = p.
Proof. by destruct p. Qed.

Lemma not_nil_perm {T} (l l' : list T) : l ≡ₚ l' → l ≠ [] → l' ≠ [].
Proof. intros Hp Hl ->. by apply Permutation_nil_r in Hp. Qed.

(** X1. The clipper returns nothing exactly when an endpoint is outside the
    rectangle and the segment has no intersection with it. *)
Theorem getInnerSegment_absent `{Geometry} (start end_ : Point) (rect : Rectangle) :
  getInnerSegment start end_ rect = None
  ↔ isCoordinateInsideTheRect end_ rect && isCoordinateInsideTheRect start rect = false
    ∧ getIntersections rect (new_Segment start end_) = [].
Proof.
  unfold getInnerSegment.
  destruct (isCoordinateInsideTheRect end_ rect && isCoordinateInsideTheRect start rect).
  - split; [done|]. by intros [? _].
  - destruct (getIntersections rect (new_Segment start end_)); simpl; by split; [|intros [_ ?]].
Qed.

(** The end points of a clipped segment, without any assumption on the
    distances: an inside end point is kept, an outside one is one of the
    intersections. *)
Lemma nearest_sorted_member (comparefn : Point → Point → float) (from : Point)
    (l : list Point) :
  l ≠ [] → nearestPoint from (JS.sort comparefn l) ∈ l.
Proof.
  intros Hsome. rewrite <- (sort_perm comparefn l) at 2.
  apply nearestPoint_member. eapply not_nil_perm; [|done].
  symmetry. apply sort_perm.
Qed.

Lemma getInnerSegment_some `{Geometry} (start end_ : Point) (rect : Rectangle)
    (result : Segment) :
  getInnerSegment start end_ rect = Some result →
  (if isCoordinateInsideTheRect start rect then A result = start
   else A result ∈ getIntersections rect (new_Segment start end_))
  ∧ (if isCoordinateInsideTheRect end_ rect then B result = end_
     else B result ∈ getIntersections rect (new_Segment start end_)).
Proof.
  unfold getInnerSegment.
  set (intersection := getIntersections rect (new_Segment start end_)).
  destruct (isCoordinateInsideTheRect end_ rect) eqn:Hend,
    (isCoordinateInsideTheRect start rect) eqn:Hstart; simpl;
    [by intros [= <-]|..];
    (destruct (Nat.eqb (length intersection) 0) eqn:Hlen; [done|]);
    intros [= <-]; simpl;
    assert (intersection ≠ []) as Hsome by (by destruct intersection).
  - split; [|done]. by apply nearest_sorted_member.
  - split; [done|]. by apply nearest_sorted_member.
  - split; [by apply nearest_sorted_member|].
    rewrite <- (sort_perm (λ p1 p2, distanceCoords start p1 - distanceCoords start p2)
                  intersection) at 2.
    apply nearest_sorted_member. eapply not_nil_perm; [|exact Hsome].
    symmetry. apply sort_perm.
Qed.

(** X2. Whatever the distances are (even [NaN], for which [sort] promises no
    order), a clipped segment has no end point of its own making: every end
    point that is inside the rectangle is the one given, and every other one
    is one of the points [getIntersections] returned. *)
Theorem getInnerSegment_endpoints `{Geometry} (start end_ : Point) (rect : Rectangle)
    (result : Segment) :
  getInnerSegment start end_ rect = Some result →
  (A result = start ∨ A result ∈ getIntersections rect (new_Segment start end_))
  ∧ (B result = end_ ∨ B result ∈ getIntersections rect (new_Segment start end_))
  ∧ (isCoordinateInsideTheRect start rect = true → A result = start)
  ∧ (isCoordinateInsideTheRect end_ rect = true → B result = end_).
Proof.
  intros [Hstart Hend]%getInnerSegment_some.
  destruct (isCoordinateInsideTheRect start rect),
    (isCoordinateInsideTheRect end_ rect); repeat split; auto; done.
Qed.

Lemma getInnerSegment_endpoints_witness :
  ∃ result,
    getInnerSegment (H := sampleGeometry) (mkPosition 10 10) (mkPosition 200 10)
      (svgRectOf 0 100 100 100) = Some result
    ∧ A result = mkPosition 10 10.
Proof.
  exists (new_Segment (mkPosition 10 10) (mkPosition 100 10)).
  assert (getInnerSegment (H := sampleGeometry) (mkPosition 10 10) (mkPosition 200 10)
            (svgRectOf 0 100 100 100)
          = Some (new_Segment (mkPosition 10 10) (mkPosition 100 10))) as Hclip
    by (vm_compute; reflexivity).
  split; [exact Hclip|].
  apply (getInnerSegment_endpoints (H := sampleGeometry) _ _ _ _ Hclip).
  vm_compute. reflexivity.
Defined.

(** X3. The [line] runner never fails and makes at most one call: none when
    the clipper returns nothing, and otherwise one [drawLine] from and to
    the end points of the clipped segment, each of which is the end point of
    the element or one of the intersections with the target rectangle. *)
Theorem line_draws_clipped_segment `{Geometry} (svgRect : Rectangle)
    (element : SVGElement) :
  let start :=
    {| x := JS.toNumber (SVGAttributes.x1 (own element));
       y := JS.toNumber (SVGAttributes.y1 (own element)) |} in
  let end_ :=
    {| x := JS.toNumber (SVGAttributes.x2 (own element));
       y := JS.toNumber (SVGAttributes.y2 (own element)) |} in
  let intersection := getIntersections svgRect (new_Segment start end_) in
  (line svgRect element = Done [] ∧ getInnerSegment start end_ svgRect = None)
  ∨ ∃ options,
      line svgRect element = Done [drawLine options]
      ∧ (DrawLine.start options = start ∨ DrawLine.start options ∈ intersection)
      ∧ (DrawLine.end_ options = end_ ∨ DrawLine.end_ options ∈ intersection)
      ∧ DrawLine.thickness options = InheritedAttributes.strokeWidth (inh element)
      ∧ DrawLine.color options = InheritedAttributes.stroke (inh element).
Proof.
  intros start end_ intersection. unfold line. fold start end_.
  destruct (getInnerSegment start end_ svgRect) as [result|] eqn:Hclip; [|by left].
  right. eexists. split; [done|]. simpl. rewrite !toCoords_same.
  apply getInnerSegment_some in Hclip as [Hstart Hend]. fold intersection in Hstart, Hend.
  destruct (isCoordinateInsideTheRect start svgRect),
    (isCoordinateInsideTheRect end_ svgRect); repeat split; auto.
Qed.

(** ** The path rewriter *)

(** X4. A command other than [m], [M], [l] and [L] is written back as it is,
    its parameters joined by commas, and leaves the current point where it
    was: the commands after a [h], [v], [a], [t], [q] or [c] are anchored at
    the point before it. *)
Theorem handlePath_other_command `{Geometry} `{Runtime}
    (svgRect : Rectangle) (basePoint currentPoint : Point)
    (command : string) (params : list float) :
  command ∉ ["m"; "M"; "l"; "L"] →
  handlePath svgRect basePoint currentPoint command params
  = {| step_point := currentPoint;
       step_command := command +:+ " " +:+ join "," (numberToString <$> params) |}.
Proof.
  intros Hother.
  assert (∀ known, known ∈ ["m"; "M"; "l"; "L"] → String.eqb command known = false)
    as Hne.
  { intros known Hknown. apply String.eqb_neq. by intros ->. }
  unfold handlePath.
  rewrite (Hne "m"), (Hne "M"), (Hne "l"), (Hne "L") by repeat constructor.
  reflexivity.
Qed.

Lemma handlePath_other_command_witness :
  handlePath (H := sampleGeometry) (H0 := sampleRuntime) (svgRectOf 0 100 100 100)
    (mkPosition 0 100) (mkPosition 10 10) "h" [500]
  = {| step_point := mkPosition 10 10; step_command := "h 500" |}.
Proof.
  rewrite (handlePath_other_command (H := sampleGeometry) (H0 := sampleRuntime)).
  - vm_compute. reflexivity.
  - intros Hin. repeat (apply elem_of_cons in Hin as [Hin|Hin]; [discriminate|]).
    by apply elem_of_nil in Hin.
Defined.

(** X5. A move is never clipped and never relative: for [m] as for [M] the
    new current point is the origin of the path moved by the parameters,
    whatever the current point and the target rectangle are, and the text is
    the command with its two parameters. *)
Theorem handlePath_move `{Geometry} `{Runtime}
    (svgRect svgRect' : Rectangle) (basePoint currentPoint currentPoint' : Point)
    (command : string) (params : list float) :
  command = "m" ∨ command = "M" →
  handlePath svgRect basePoint currentPoint command params
  = handlePath svgRect' basePoint currentPoint' command params
  ∧ step_point (handlePath svgRect basePoint currentPoint command params)
    = {| x := x basePoint + arg params 0; y := y basePoint + arg params 1 |}.
Proof. by intros [-> | ->]. Qed.

Lemma handlePath_move_witness :
  step_point
    (handlePath (H := sampleGeometry) (H0 := sampleRuntime) (svgRectOf 0 100 100 100)
       (mkPosition 0 100) (mkPosition 40 40) "m" [500; 5])
  = mkPosition 500 105.
Proof.
  pose proof (handlePath_move (H := sampleGeometry) (H0 := sampleRuntime)
                (svgRectOf 0 100 100 100) (svgRectOf 0 100 100 100)
                (mkPosition 0 100) (mkPosition 40 40) (mkPosition 40 40)
                "m" [500; 5]) as Hmove.
  destruct Hmove as [_ ->]; [by left|]. vm_compute. reflexivity.
Defined.

Lemma getInnerSegment_both_inside `{Geometry} (start end_ : Point) (rect : Rectangle) :
  isCoordinateInsideTheRect start rect = true →
  isCoordinateInsideTheRect end_ rect = true →
  getInnerSegment start end_ rect = Some (new_Segment start end_).
Proof. intros Hstart Hend. unfold getInnerSegment. by rewrite Hstart, Hend. Qed.

(** X6. A line whose two end points are inside the target rectangle is
    written as one line command to its end point, relative to the origin of
    the path, with no move before or after it; this asks of [isEqual] on
    points that it holds of a point and itself. *)
Theorem handlePath_line_inside `{Geometry} `{Runtime}
    (svgRect : Rectangle) (basePoint currentPoint : Point)
    (command : string) (params : list float) :
  command = "l" ∨ command = "L" →
  let nextPoint :=
    {| x := (if String.eqb command "l" then x currentPoint else x basePoint)
            + arg params 0;
       y := (if String.eqb command "l" then y currentPoint else y basePoint)
            + arg params 1 |} in
  isCoordinateInsideTheRect currentPoint svgRect = true →
  isCoordinateInsideTheRect nextPoint svgRect = true →
  Point_isEqual currentPoint currentPoint = true →
  Point_isEqual nextPoint nextPoint = true →
  handlePath svgRect basePoint currentPoint command params
  = {| step_point := nextPoint;
       step_command :=
         " L" +:+ numberToString (x nextPoint - x basePoint) +:+ ","
           +:+ numberToString (y nextPoint - y basePoint) +:+ "  " |}.
Proof.
  intros Hcommand nextPoint.
  assert ({| x := x currentPoint; y := y currentPoint |} = currentPoint) as Heta
    by by destruct currentPoint.
  unfold handlePath.
  destruct Hcommand as [-> | ->]; subst nextPoint; simpl;
    intros Hcurrent Hnext Hsame Hsame'; rewrite Heta;
    rewrite (getInnerSegment_both_inside _ _ _ Hcurrent Hnext); simpl;
    by rewrite Hsame, Hsame'.
Qed.

Lemma handlePath_line_inside_witness :
  handlePath (H := sampleGeometry) (H0 := sampleRuntime) (svgRectOf 0 100 100 100)
    (mkPosition 0 100) (mkPosition 10 90) "l" [20; -30]
  = {| step_point := mkPosition 30 60; step_command := " L30,-40  " |}.
Proof.
  rewrite (handlePath_line_inside (H := sampleGeometry) (H0 := sampleRuntime));
    [|by left|vm_compute; reflexivity..].
  vm_compute. reflexivity.
Defined.

Lemma rewriteCommands_fold_length `{Geometry} `{Runtime}
    (svgRect : Rectangle) (basePoint : Point) (commands : list string)
    (state : Point * list string) :
  length
    (foldl
       (λ '(currentPoint, out) command,
          match firstLetter command, numberRuns command with
          | Some letter, Some runs =>
              if JS.truthyStr letter then
                let params := parseFloat <$> filter (λ m, m ≠ "") runs in
                let result := handlePath svgRect basePoint currentPoint letter params in
                (step_point result, out ++ [step_command result])
              else (currentPoint, out ++ [command])
          | _, _ => (currentPoint, out ++ [command])
          end)
       state commands).2
  = (length state.2 + length commands)%nat.
Proof.
  revert state. induction commands as [|command commands IH]; intros [point_ out]; simpl.
  - lia.
  - rewrite IH.
    destruct (firstLetter command) as [letter|], (numberRuns command) as [runs|];
      try destruct (JS.truthyStr letter); simpl; rewrite length_app; simpl; lia.
Qed.

(** X7. The path rewriter writes one piece of text for each command of the
    path, in the order of the commands: none is dropped and none is added,
    also when a command has no letter or is clipped away. *)
Theorem rewriteCommands_length `{Geometry} `{Runtime}
    (svgRect : Rectangle) (basePoint : Point) (commands : list string) :
  length (rewriteCommands svgRect basePoint commands) = length commands.
Proof. unfold rewriteCommands. by rewrite rewriteCommands_fold_length. Qed.

(** ** The transform composer *)

Lemma transform_log `{Runtime} (converter : SVGSizeConverter)
    (name : string) (args : list float) :
  (transform converter name args).1
  = if bool_decide (name ∈ supportedTransforms) then [] else [unsupportedLine name].
Proof.
  case_bool_decide as Hname.
  - unfold supportedTransforms in Hname.
    repeat (apply elem_of_cons in Hname as [->|Hname]); [..|by apply elem_of_nil in Hname];
      unfold transform; simpl; by try destruct (Nat.ltb _ _).
  - assert (∀ known, known ∈ supportedTransforms → String.eqb name known = false)
      as Hne.
    { intros known Hknown. apply String.eqb_neq. by intros ->. }
    unfold transform.
    repeat (rewrite Hne by (unfold supportedTransforms; repeat constructor)).
    reflexivity.
Qed.

(** X8. [transform] writes to the console exactly when it does not know the
    instruction: nothing for the nine names it handles, whatever the
    arguments (none, too many, [NaN]), and one line naming the instruction
    for any other name. *)
Theorem transform_logs_iff_unsupported `{Runtime} (converter : SVGSizeConverter)
    (name : string) (args : list float) :
  ((transform converter name args).1 = [] ↔ name ∈ supportedTransforms)
  ∧ ((transform converter name args).1 = [unsupportedLine name]
     ↔ name ∉ supportedTransforms).
Proof.
  rewrite transform_log. case_bool_decide; split; split; done.
Qed.

(** X9. Translations and skews leave lengths alone: composing [translate],
    [translateX], [translateY], [skewX] or [skewY] onto a converter gives a
    converter with the same size mapping, whatever the arguments. *)
Theorem transform_keeps_size `{Runtime} (converter : SVGSizeConverter)
    (name : string) (args : list float) :
  name ∈ sizeKeeping →
  size (transform converter name args).2 = size converter.
Proof.
  unfold sizeKeeping. intros Hname.
  repeat (apply elem_of_cons in Hname as [->|Hname]); [..|by apply elem_of_nil in Hname];
    reflexivity.
Qed.

Lemma transform_keeps_size_witness :
  size (transform (H := sampleRuntime) (defaultConverter 100) "skewX" [30]).2
  = size (defaultConverter 100).
Proof.
  apply (transform_keeps_size (H := sampleRuntime)).
  unfold sizeKeeping. repeat constructor.
Defined.

Lemma applyTransforms_fold_log `{Runtime} (parsed : list (string * string))
    (acc : Console SVGSizeConverter) :
  (foldl
     (λ acc parsed,
        let* newConverter := acc in
        let '(name, rawArgs) := parsed in
        let args :=
          parseFloat <$> filter (λ value, (0 < String.length value)%nat)
                           (splitArgs rawArgs) in
        transform newConverter name args)
     acc parsed).1
  = acc.1 ++ (unsupportedLine <$> filter (λ name, name ∉ supportedTransforms) parsed.*1).
Proof.
  revert acc. induction parsed as [|[name rawArgs] parsed IH]; intros [out current]; simpl.
  - by rewrite app_nil_r.
  - rewrite IH. unfold bind.
    pose proof (transform_log current name
                  (parseFloat <$> filter (λ value, (0 < String.length value)%nat)
                                    (splitArgs rawArgs))) as Hlog.
    destruct (transform current name _) as [out' next]. simpl in *. subst out'.
    rewrite filter_cons. case_bool_decide as Hname.
    + rewrite decide_False by (by intros ?). by rewrite app_nil_r.
    + rewrite decide_True by done. by rewrite <- app_assoc.
Qed.

(** X10. Applying a transform list never stops at an instruction it does not
    know: the console gets one line for each unknown instruction
    [regexTransform] finds, in the order of the list, and nothing else; a
    list in which every instruction is known leaves the console empty. *)
Theorem applyTransforms_log `{Runtime} (converter : SVGSizeConverter)
    (transformList : string) :
  (applyTransforms converter transformList).1
  = unsupportedLine
      <$> filter (λ name, name ∉ supportedTransforms) (regexTransform transformList).*1.
Proof. unfold applyTransforms. by rewrite applyTransforms_fold_log. Qed.

(** ** Fitting and the [viewBox] converter *)

(** X11. The alignment token moves the fitted rectangle and never resizes
    it: for any two tokens other than [none], known or not, given or not,
    the fitted width and height are the same. *)
Theorem getFittingRectangle_size_of_token
    (originalWidth originalHeight targetWidth targetHeight : float)
    (token token' : option string) :
  token ≠ Some "none" → token' ≠ Some "none" →
  let fit := getFittingRectangle originalWidth originalHeight targetWidth targetHeight in
  box_width (fit token) = box_width (fit token')
  ∧ box_height (fit token) = box_height (fit token').
Proof.
  intros Hnone Hnone'. unfold getFittingRectangle.
  rewrite (token_is_not token "none"), (token_is_not token' "none") by done.
  repeat case_bool_decide; by split.
Qed.

Lemma getFittingRectangle_size_of_token_witness :
  box_width (getFittingRectangle 100 50 200 200 (Some "xMaxYMin"))
  = box_width (getFittingRectangle 100 50 200 200 None).
Proof.
  by apply (getFittingRectangle_size_of_token 100 50 200 200 (Some "xMaxYMin") None).
Defined.

(** X12. In the converter of a [viewBox] the two mappings agree: a point is
    mapped like the size of its offset from the corner of the [viewBox],
    moved by the offset of the fitted rectangle; and the size mapping is the
    one of the plain converter for the fitted size, untouched by the
    alignment. *)
Theorem getConverterWithAspectRatio_point_size
    (size_ : Size) (viewBox : Box) (preserveAspectRatio : option string)
    (xReal yReal : float) :
  let fit :=
    getFittingRectangle (box_width viewBox) (box_height viewBox)
      (width size_) (height size_) preserveAspectRatio in
  let inner := getConverterWithAspectRatio size_ viewBox preserveAspectRatio in
  let offset := size inner (xReal - box_x viewBox) (yReal - box_y viewBox) in
  point inner xReal yReal
  = {| x := width offset + box_x fit; y := height offset + box_y fit |}
  ∧ size inner
    = size (getConverter {| width := box_width fit; height := box_height fit |} viewBox).
Proof. by split. Qed.

(** ** Reading attribute values *)

Lemma truthyStr_false (s : string) : JS.truthyStr s = false ↔ s = "".
Proof.
  unfold JS.truthyStr. destruct (String.eqb_spec s ""); simpl; split; congruence.
Qed.

(** X13. [parseFloatValue] gives nothing exactly for a missing value, an
    empty one, and one [parseFloat] cannot read; what it gives for a value
    that does not end in [%] is the number [parseFloat] read, never [NaN],
    whatever the reference. *)
Theorem parseFloatValue_absent_or_number `{Runtime}
    (value : option string) (reference : float) :
  (parseFloatValue value reference = None
   ↔ value = None ∨ value = Some ""
     ∨ ∃ text, value = Some text ∧ is_nan (parseFloat text) = true)
  ∧ (∀ text v,
       value = Some text → endsWithPercent text = false →
       parseFloatValue value reference = Some v →
       v = parseFloat text ∧ is_nan v = false).
Proof.
  split.
  - destruct value as [text|]; simpl; [|by split; auto].
    destruct (JS.truthyStr text) eqn:Htext; simpl.
    + destruct (is_nan (parseFloat text)) eqn:Hnan.
      * split; [|done]. intros _. right. right. by exists text.
      * split; [by destruct (endsWithPercent text)|].
        intros [?|[[= ->]|(t & [= <-] & Hnan')]]; [done|done|congruence].
    + apply truthyStr_false in Htext as ->. split; auto.
  - intros text v -> Hpercent. simpl.
    destruct (JS.truthyStr text); simpl; [|done].
    destruct (is_nan (parseFloat text)) eqn:Hnan; [done|].
    rewrite Hpercent. by intros [= <-].
Qed.

Lemma parseColor_none `{Runtime} (color : option string) :
  parseColor color = None ↔ color ∈ noPaint.
Proof.
  unfold noPaint.
  destruct color as [text|]; simpl; [|split; [intros _; apply list_elem_of_here|done]].
  destruct (JS.truthyStr text) eqn:Htext; simpl.
  - case_bool_decide as Hnone.
    + split; [|done]. intros _.
      apply elem_of_cons in Hnone as [->|Hnone]; [repeat constructor|].
      apply list_elem_of_singleton in Hnone as ->. repeat constructor.
    + split; [done|]. intros Hin. exfalso.
      repeat (apply elem_of_cons in Hin as [Hin|Hin]);
        [done| |..|by apply elem_of_nil in Hin].
      * injection Hin as ->. done.
      * injection Hin as ->. apply Hnone. repeat constructor.
      * injection Hin as ->. apply Hnone. repeat constructor.
  - apply truthyStr_false in Htext as ->. split; [|done]. intros _. repeat constructor.
Qed.

(** X14. [parseColor] gives no paint exactly for a missing value, the empty
    text, [none] and [transparent]; for every other value it gives the
    colour [colorString] reads, even when that is not a colour name. *)
Theorem parseColor_absent `{Runtime} (color : option string) :
  (parseColor color = None ↔ color ∈ noPaint)
  ∧ (∀ parsed, parseColor color = Some parsed →
       ∃ text, color = Some text ∧ parsed.1 = (colorString text).1).
Proof.
  split; [apply parseColor_none|].
  intros parsed. destruct color as [text|]; simpl; [|done].
  destruct (JS.truthyStr text); simpl; [|done].
  case_bool_decide; [done|]. intros [= <-]. by exists text.
Qed.

(** X15. [parseViewBox] gives a box for every text that is not empty: the
    numbers it cannot read, and those that are missing, become 0 for the
    corner and 1 for the width and the height, so the box of a text without
    a number is (0, 0, 1, 1). *)
Theorem parseViewBox_defaults `{Runtime} (viewBox : option string) :
  (parseViewBox viewBox = None ↔ viewBox = None ∨ viewBox = Some "")
  ∧ (∀ text,
       viewBox = Some text → text ≠ "" →
       (∀ part, part ∈ splitSpaces text → parseFloatValue (Some part) 1 = None) →
       parseViewBox viewBox
       = Some {| box_x := 0; box_y := 0; box_width := 1; box_height := 1 |}).
Proof.
  split.
  - destruct viewBox as [text|]; simpl; [|by split; auto].
    destruct (JS.truthyStr text) eqn:Htext; simpl.
    + split; [done|]. intros [?|[= ->]]; done.
    + apply truthyStr_false in Htext as ->. by split; auto.
  - intros text -> Htext Hparts. simpl.
    destruct (JS.truthyStr text) eqn:Htruthy; [|by apply truthyStr_false in Htruthy].
    simpl. f_equal.
    assert (∀ i, mjoin (((λ val, parseFloatValue (Some val) 1) <$> splitSpaces text) !! i)
                 = None) as Hnone.
    { intros i. rewrite list_lookup_fmap.
      destruct (splitSpaces text !! i) as [part|] eqn:Hpart; simpl; [|done].
      apply Hparts. by eapply list_elem_of_lookup_2. }
    by rewrite !Hnone.
Qed.

Lemma parseViewBox_defaults_witness :
  parseViewBox (H := sampleRuntime) (Some "auto")
  = Some {| box_x := 0; box_y := 0; box_width := 1; box_height := 1 |}.
Proof.
  destruct (parseViewBox_defaults (H := sampleRuntime) (Some "auto")) as [_ Hbox].
  apply (Hbox "auto"); [done|done|].
  intros part Hin. change (splitSpaces "auto") with ["auto"] in Hin.
  apply list_elem_of_singleton in Hin as ->. vm_compute. reflexivity.
Defined.

(** ** The cascade *)

Lemma parseStyles_fold_lookup (matches : list (option string * string))
    (property : string) :
  foldl
    (λ (css : gmap string string) m,
       let name := default "undefined" m.1 in
       if String.eqb name "__proto__" then css else <[name := m.2]> css)
    ∅ matches !! property
  = if String.eqb property "__proto__" then None
    else snd <$> last (filter (λ m, default "undefined" m.1 = property) matches).
Proof.
  induction matches as [|m matches IH] using rev_ind.
  { by destruct (String.eqb property "__proto__"). }
  rewrite foldl_app, filter_app. cbn [foldl]. rewrite filter_cons, filter_nil.
  cbv zeta in IH |- *.
  destruct (String.eqb_spec (default "undefined" m.1) "__proto__") as [Hproto|Hproto];
    destruct (decide (default "undefined" m.1 = property)) as [Hkey|Hkey].
  - rewrite IH, <- Hkey, Hproto. done.
  - by rewrite app_nil_r.
  - rewrite last_snoc, Hkey, lookup_insert_eq. rewrite <- Hkey.
    by destruct (String.eqb_spec (default "undefined" m.1) "__proto__").
  - rewrite app_nil_r, lookup_insert_ne by done. apply IH.
Qed.

(** X16. What the object [parseStyles] returns holds under a name is the
    second group of the last match of the style expression whose first
    group is that name, and nothing when no match has it; a match without a
    first group counts under the name [undefined], and under [__proto__]
    the object is given nothing.  Which matches a style text has is the
    business of the expression: this is about the loop over them, where a
    later match overwrites an earlier one of the same name. *)
Theorem parseStyles_last_match `{Runtime} (style : option string)
    (property : string) :
  parseStyles style !! property
  = if String.eqb property "__proto__" then None
    else snd <$> last (filter (λ m, default "undefined" m.1 = property)
                         (cssRegex (default "undefined" style))).
Proof. apply parseStyles_fold_lookup. Qed.

(** The matches the style expression of the source has.  After a semicolon
    without a blank the name of the next match starts with the semicolon,
    so the second of two declarations of [stroke-width] is filed under
    another name and the first one stays; with a blank after the semicolon
    the second one overwrites the first. *)
Example parseStyles_semicolon :
  parseStyles (H := sampleRuntime) (Some "stroke-width:2;stroke-width:3")
  = {[ "stroke-width" := "2"; ";stroke-width" := "3" ]}
  ∧ parseStyles (H := sampleRuntime) (Some "stroke-width:2; stroke-width:3")
    = {[ "stroke-width" := "3" ]}.
Proof. split; vm_compute; reflexivity. Qed.

(** X17. The value of a property is taken from the inline style when the
    style has a non-empty value for it, else from the attribute of the same
    name when that is non-empty, and else it is the default of the caller
    when there is one; without a default an empty value is handed on as it
    is found. *)
Theorem styleOrAttribute_precedence (attributes style : gmap string string)
    (attribute : string) (def : option string) :
  let value := styleOrAttribute attributes style attribute def in
  (given (style !! attribute) = true → value = style !! attribute)
  ∧ (given (style !! attribute) = false → given (attributes !! attribute) = true →
     value = attributes !! attribute)
  ∧ (given (style !! attribute) = false → given (attributes !! attribute) = false →
     value = if def is Some _ then def else attributes !! attribute).
Proof.
  unfold styleOrAttribute, or_str, given.
  destruct (style !! attribute) as [s|]; [destruct (JS.truthyStr s) eqn:Hs|];
    (destruct (attributes !! attribute) as [a|]; [destruct (JS.truthyStr a) eqn:Ha|]);
    simpl; rewrite ?Hs, ?Ha; simpl; repeat split; intros; try done;
    destruct def; done.
Qed.

(** ** What an element inherits *)

(** X18. An element that gives no paint of its own for [fill] or [stroke]
    (the property is missing, empty, [none] or [transparent]) keeps the
    paint of its parent: [none] does not switch an inherited paint off. *)
Theorem parseAttributes_inherits_paint `{Runtime}
    (tagName : string) (attributes : gmap string string)
    (parent : InheritedAttributes.t) (outer : SVGSizeConverter) :
  let style := parseStyles (attributes !! "style") in
  let resolved := (parseAttributes tagName attributes parent outer).2 in
  (styleOrAttribute attributes style "fill" None ∈ noPaint →
   InheritedAttributes.fill (inherited resolved) = InheritedAttributes.fill parent)
  ∧ (styleOrAttribute attributes style "stroke" None ∈ noPaint →
     InheritedAttributes.stroke (inherited resolved)
     = InheritedAttributes.stroke parent).
Proof.
  intros style resolved. unfold resolved. rewrite parseAttributes_result.
  split; intros Hnone%parseColor_none; unfold resolveAttributes; simpl;
    fold style; by rewrite Hnone.
Qed.

Lemma parseAttributes_inherits_paint_witness :
  InheritedAttributes.fill
    (inherited
       (parseAttributes (H := sampleRuntime) "rect" (list_to_map [("fill", "none")])
          (InheritedAttributes.mk 100 100 (Some (rgb 1 0 0)) None None None None
             None None None None None)
          (defaultConverter 100)).2)
  = Some (rgb 1 0 0).
Proof.
  pose proof (parseAttributes_inherits_paint (H := sampleRuntime) "rect"
                (list_to_map [("fill", "none")])
                (InheritedAttributes.mk 100 100 (Some (rgb 1 0 0)) None None None None
                   None None None None None)
                (defaultConverter 100)) as [Hfill _].
  rewrite Hfill; [reflexivity|]. vm_compute. repeat constructor.
Defined.

(** X19. An element with none of the attributes the converter is built from
    ([transform], [x], [y], [viewBox] and the nine direct transforms) hands
    on the converter it was given, and writes nothing to the console. *)
Theorem parseAttributes_keeps_converter `{Runtime}
    (tagName : string) (attributes : gmap string string)
    (parent : InheritedAttributes.t) (outer : SVGSizeConverter) :
  (∀ name, name ∈ converterAttributes → attributes !! name = None) →
  (parseAttributes tagName attributes parent outer).1 = []
  ∧ converter (parseAttributes tagName attributes parent outer).2 = outer.
Proof.
  intros Hnone.
  assert (∀ name, name ∈ converterAttributes → attributes !! name = None) as Hnone'
    by exact Hnone.
  unfold converterAttributes in Hnone.
  assert (transformListOf attributes parent = "") as Hlist.
  { unfold transformListOf, prependDirect, directTransforms. simpl.
    do 12 (rewrite Hnone by repeat constructor). reflexivity. }
  unfold parseAttributes. rewrite Hlist. simpl. split; [done|].
  unfold resolveAttributes. simpl.
  rewrite (Hnone "viewBox") by repeat constructor. reflexivity.
Qed.

Lemma parseAttributes_keeps_converter_witness :
  converter
    (parseAttributes (H := sampleRuntime) "rect"
       (list_to_map [("width", "10"); ("fill", "red")])
       (pageAttributes 100 100) (defaultConverter 100)).2
  = defaultConverter 100.
Proof.
  apply (parseAttributes_keeps_converter (H := sampleRuntime)).
  unfold converterAttributes. intros name Hin. each_member; reflexivity.
Defined.

(** X20. The reference box never degenerates on the way down: when the
    width and the height an element inherits are neither zero nor [NaN],
    so are the width and the height it hands to its children, whatever its
    own [width] and [height] say (zero, a percentage of zero, not a
    number). *)
Theorem parseAttributes_reference_box `{Runtime}
    (tagName : string) (attributes : gmap string string)
    (parent : InheritedAttributes.t) (outer : SVGSizeConverter) :
  JS.truthy (InheritedAttributes.width parent) = true →
  JS.truthy (InheritedAttributes.height parent) = true →
  let resolved := (parseAttributes tagName attributes parent outer).2 in
  JS.truthy (InheritedAttributes.width (inherited resolved)) = true
  ∧ JS.truthy (InheritedAttributes.height (inherited resolved)) = true.
Proof.
  intros Hwidth Hheight resolved. unfold resolved.
  rewrite parseAttributes_result. unfold resolveAttributes. simpl.
  unfold JS.or_num.
  split.
  - destruct (parseFloatValue _ (InheritedAttributes.width parent)) as [v|]; [|done].
    by destruct (JS.truthy v) eqn:Hv.
  - destruct (parseFloatValue _ (InheritedAttributes.height parent)) as [v|]; [|done].
    by destruct (JS.truthy v) eqn:Hv.
Qed.

Lemma parseAttributes_reference_box_witness :
  InheritedAttributes.width
    (inherited
       (parseAttributes (H := sampleRuntime) "g" (list_to_map [("width", "0")])
          (pageAttributes 100 50) (defaultConverter 50)).2)
  = 100.
Proof.
  pose proof (parseAttributes_reference_box (H := sampleRuntime) "g"
                (list_to_map [("width", "0")]) (pageAttributes 100 50)
                (defaultConverter 50)) as Hbox.
  destruct Hbox as [_ _]; [reflexivity..|]. vm_compute. reflexivity.
Defined.

(** ** The tree walker *)

Lemma parseHTMLNode_tags `{Runtime} (node : Node) :
  ∀ parent outer, tagName <$> (parseHTMLNode node parent outer).2 = leafTags node.
Proof.
  revert node. fix IH 1. intros [text_ | text_ | tag attributes children] parent outer;
    [done..|].
  simpl. unfold bind at 1.
  destruct (parseAttributes tag attributes parent outer) as [out [i c t s]].
  destruct (String.eqb tag "g" || String.eqb tag "svg"); [|done].
  assert (∀ acc : Console (list SVGElement),
            tagName <$>
              (foldl
                 (λ acc child,
                    let* result := acc in
                    let* more := parseHTMLNode child i c in
                    ret (result ++ more))
                 acc children).2
            = (tagName <$> acc.2) ++ flat_map leafTags children) as Hfold.
  { induction children as [|child children IHchildren]; intros [out' result]; simpl.
    - by rewrite app_nil_r.
    - rewrite IHchildren. unfold bind, ret.
      pose proof (IH child i c) as Hchild.
      destruct (parseHTMLNode child i c) as [out'' more]. simpl in *.
      by rewrite fmap_app, Hchild, <- app_assoc. }
  match goal with
  | |- context [foldl ?f (ret []) children] =>
      destruct (foldl f (ret []) children) as [out' result] eqn:Hrun
  end.
  specialize (Hfold (ret [])). rewrite Hrun in Hfold. exact Hfold.
Qed.

Lemma leafTags_no_group (node : Node) :
  ∀ tag, tag ∈ leafTags node → tag ≠ "g" ∧ tag ≠ "svg".
Proof.
  revert node. fix IH 1. intros [text_ | text_ | name attributes children] tag; simpl;
    [by intros ?%elem_of_nil..|].
  destruct (String.eqb name "g") eqn:Hg, (String.eqb name "svg") eqn:Hsvg; simpl.
  4: { intros ->%list_elem_of_singleton.
       by split; apply String.eqb_neq. }
  all: induction children as [|child children IHchildren]; simpl;
    [by intros ?%elem_of_nil|];
    intros [Hin|Hin]%elem_of_app; [by apply (IH child)|by apply IHchildren].
Qed.

(** X21. The tree walker goes down through groups ([g] and [svg]) and
    nowhere else.  It gives one drawable for each element that is no group
    and has only groups above it, in document order, with the tag of that
    element; what is below such an element (a [tspan] in a [text], a [rect]
    in an [a] or in [defs]) gives none, comments and texts give none, and a
    group never becomes a drawable itself. *)
Theorem parseHTMLNode_drawables `{Runtime} (node : Node)
    (parent : InheritedAttributes.t) (outer : SVGSizeConverter) :
  tagName <$> (parseHTMLNode node parent outer).2 = leafTags node
  ∧ ∀ element, element ∈ (parseHTMLNode node parent outer).2 →
      tagName element ≠ "g" ∧ tagName element ≠ "svg".
Proof.
  split; [apply parseHTMLNode_tags|].
  intros element Hin. apply (leafTags_no_group node).
  rewrite <- (parseHTMLNode_tags node parent outer). by apply list_elem_of_fmap_2.
Qed.

(** ** The draw dispatcher *)

Lemma runnersToPage_known `{Geometry} `{Runtime} (svgRect : Rectangle)
    (page : PDFPage) (options : PDFPageDrawSVGElementOptions) (tag : string) :
  is_Some (runnersToPage svgRect page options tag) ↔ tag ∈ knownTags.
Proof.
  unfold runnersToPage, knownTags. split.
  - repeat (case_tag tag; [intros _; repeat constructor|]).
    intros Hsome. by apply is_Some_None in Hsome.
  - intros Hin. each_member; by eexists.
Qed.

Lemma runner_calls `{Geometry} `{Runtime} (svgRect : Rectangle)
    (page : PDFPage) (options : PDFPageDrawSVGElementOptions) (tag : string)
    (runner : SVGElement → Outcome) (element : SVGElement) :
  runnersToPage svgRect page options tag = Some runner →
  (length (callsOf (runner element)) ≤ 1)%nat.
Proof.
  unfold runnersToPage.
  repeat (case_tag tag; [intros [= <-]|]); [..|done].
  - unfold text. destruct (head (childNodes element)); [|simpl; lia].
    destruct (isCoordinateInsideTheRect _ _); simpl; lia.
  - unfold line. destruct (getInnerSegment _ _ _); simpl; lia.
  - unfold path. destruct (SVGAttributes.d (own element)); simpl; lia.
  - unfold image. destruct (embedPng page _); simpl; lia.
  - unfold rect. destruct (_ && _); simpl; lia.
  - simpl. lia.
  - simpl. lia.
Qed.

(** X23. A runner makes at most one call on the page for an element, and
    its promise is rejected in three cases and no other: with a [TypeError]
    by the [text] runner on an element without a child node and by the
    [path] runner on an element without path data, both a read of a
    property of [undefined], and with the error of [embedPng] by the
    [image] runner when the image cannot be embedded.  What the page does
    with a call it is given is not part of this. *)
Theorem runner_at_most_one_call `{Geometry} `{Runtime} (svgRect : Rectangle)
    (page : PDFPage) (options : PDFPageDrawSVGElementOptions) (tag : string)
    (runner : SVGElement → Outcome) (element : SVGElement) :
  runnersToPage svgRect page options tag = Some runner →
  (runner element = TypeError
   ↔ tag = "text" ∧ childNodes element = []
     ∨ tag = "path" ∧ SVGAttributes.d (own element) = None)
  ∧ (runner element = EmbedError
     ↔ tag = "image" ∧ embedPng page (SVGAttributes.src (own element)) = None)
  ∧ (∀ calls, runner element = Done calls → (length calls ≤ 1)%nat).
Proof.
  intros Hrunner. split; [|split].
  3: { intros calls Hdone.
       pose proof (runner_calls svgRect page options tag runner element Hrunner)
         as Hcalls.
       by rewrite Hdone in Hcalls. }
  all: revert Hrunner; unfold runnersToPage;
    repeat (case_tag tag; [intros [= <-]|]); [..|done].
  all: unfold text, line, path, image, rect, circle, ellipse.
  all: try destruct (childNodes element) as [|child rest]; simpl.
  all: try destruct (isCoordinateInsideTheRect _ _).
  all: try destruct (getInnerSegment _ _ _).
  all: try destruct (SVGAttributes.d (own element)).
  all: try destruct (embedPng page _).
  all: try destruct (_ && _).
  all: split; [|intros [[? ?]|[? ?]] || intros [? ?]]; try done.
  all: intros _; auto.
Qed.

Lemma runner_at_most_one_call_witness :
  text (H := sampleGeometry) (svgRectOf 0 100 100 100) (placedAt 0 100 100 100)
    (mkSVGElement "text" []
       (mkResolved (pageAttributes 100 100)
          (SVGAttributes.mk None None None None None None None None None None None
             None None None None None None None None None None)))
  = TypeError.
Proof.
  destruct (runner_at_most_one_call (H := sampleGeometry) (H0 := sampleRuntime)
              (svgRectOf 0 100 100 100) samplePage (placedAt 0 100 100 100) "text"
              (text (H := sampleGeometry) (svgRectOf 0 100 100 100) (placedAt 0 100 100 100))
              (mkSVGElement "text" []
                 (mkResolved (pageAttributes 100 100)
                    (SVGAttributes.mk None None None None None None None None None None
                       None None None None None None None None None None None)))
              eq_refl) as [Herror _].
  apply Herror. left. split; reflexivity.
Defined.

(** X24. The [rect] runner draws nothing exactly when the element has
    neither fill nor stroke; otherwise it draws one rectangle with the
    resolved width, the resolved height turned negative, the fill as colour
    and the stroke as border, and a missing [y] drawn as 0. *)
Theorem rect_draws (element : SVGElement) :
  (rect element = Done []
   ↔ InheritedAttributes.fill (inh element) = None
     ∧ InheritedAttributes.stroke (inh element) = None)
  ∧ (∀ options, rect element = Done [drawRectangle options] →
       DrawRectangle.width options = resolved_width (svgAttributes element)
       ∧ DrawRectangle.height options = resolved_height (svgAttributes element) * (-1)
       ∧ DrawRectangle.y options = JS.or_num (SVGAttributes.y (own element)) 0
       ∧ DrawRectangle.color options = InheritedAttributes.fill (inh element)
       ∧ DrawRectangle.borderColor options = InheritedAttributes.stroke (inh element)).
Proof.
  unfold rect.
  destruct (InheritedAttributes.fill (inh element)) as [fill|] eqn:Hfill,
    (InheritedAttributes.stroke (inh element)) as [stroke|] eqn:Hstroke; simpl.
  all: split; [split; [try done|by intros [? ?]]|].
  all: try (intros options [= <-]; simpl; by rewrite ?Hfill, ?Hstroke).
Qed.

(** X25. The [text] runner draws a text only at a point inside the target
    rectangle: the anchor, moved left by half the estimated width for
    [middle] and by all of it for [end], is tested before the call, and the
    call is made at that very point, with the size 12 when the element has
    no font size. *)
Theorem text_drawn_inside `{Geometry} (svgRect : Rectangle)
    (options : PDFPageDrawSVGElementOptions) (element : SVGElement)
    (calls : list DrawCall) (content : string) (drawn : DrawText.t) :
  text svgRect options element = Done calls →
  drawText content drawn ∈ calls →
  isCoordinateInsideTheRect {| x := DrawText.x drawn; y := DrawText.y drawn |} svgRect
  = true
  ∧ DrawText.size drawn = JS.or_num (InheritedAttributes.fontSize (inh element)) 12
  ∧ DrawText.y drawn = JS.or_num (SVGAttributes.y (own element)) 0
  ∧ nodeText <$> head (childNodes element) = Some content.
Proof.
  unfold text. destruct (head (childNodes element)) as [child|]; [|done].
  destruct (isCoordinateInsideTheRect _ svgRect) eqn:Hinside; intros [= <-];
    [|by intros ?%elem_of_nil].
  intros Hin%list_elem_of_singleton. injection Hin as -> ->. simpl.
  by rewrite Hinside.
Qed.

Lemma text_drawn_inside_witness :
  ∃ drawn,
    text (H := sampleGeometry) (svgRectOf 0 100 100 100) (placedAt 0 100 100 100)
      (mkSVGElement "text" [TEXT_NODE "abcd"]
         (mkResolved (pageAttributes 100 100)
            (SVGAttributes.mk None None None None None None (Some 50) (Some 50) None
               None None None None None None None None None None (Some "end") None)))
    = Done [drawText "abcd" drawn]
    ∧ DrawText.x drawn = 26 ∧ DrawText.size drawn = 12.
Proof.
  eexists. split; [vm_compute; reflexivity|].
  split; [reflexivity|].
  eapply (text_drawn_inside (H := sampleGeometry) (svgRectOf 0 100 100 100)
            (placedAt 0 100 100 100)
            (mkSVGElement "text" [TEXT_NODE "abcd"]
               (mkResolved (pageAttributes 100 100)
                  (SVGAttributes.mk None None None None None None (Some 50) (Some 50)
                     None None None None None None None None None None None
                     (Some "end") None)))).
  - vm_compute. reflexivity.
  - apply list_elem_of_here.
Defined.

(** ** Options and whole drawings *)

Lemma withOptions_root `{Runtime} (tag : string) (attributes : gmap string string)
    (children : list Node) (options : PDFPageDrawSVGElementOptions) (size_ : Size) :
  ∃ attributes',
    withOptions (ELEMENT_NODE tag attributes children) options size_
    = Some (ELEMENT_NODE tag attributes' children).
Proof.
  unfold withOptions.
  destruct (Options.width options) as [w|]; [destruct (JS.truthy w)|];
    (destruct (Options.height options) as [h|]; [destruct (JS.truthy h)|]);
    destruct (Options.x options) as [x_|], (Options.y options) as [y_|];
    (destruct (Options.fontSize options) as [f|]; [destruct (JS.truthy f)|]);
    simpl; by eexists.
Qed.

(** X26. The options of [drawSvg] overrule the attributes of a root
    element and nothing else of it: the root [parse] goes on with has the
    tag and the child nodes of the markup's root, and its attributes are
    those of the markup except that a given [x] or [y], zero included,
    replaces the root's own ([y] as the height of the page minus the
    option), and a given [width], [height] or [fontSize] replaces the
    root's [width], [height] or [font-size] unless it is zero or [NaN]. *)
Theorem withOptions_overrides `{Runtime} (tag : string)
    (attributes : gmap string string) (children : list Node)
    (options : PDFPageDrawSVGElementOptions) (size_ : Size) :
  let kept (v : option float) (name : string) :=
    match v with
    | Some n => if JS.truthy n then Some (numberToString n) else attributes !! name
    | None => attributes !! name
    end in
  ∃ attributes',
    withOptions (ELEMENT_NODE tag attributes children) options size_
    = Some (ELEMENT_NODE tag attributes' children)
    ∧ attributes' !! "x"
      = (if Options.x options is Some v then Some (numberToString v)
         else attributes !! "x")
    ∧ attributes' !! "y"
      = (if Options.y options is Some v then Some (numberToString (height size_ - v))
         else attributes !! "y")
    ∧ attributes' !! "width" = kept (Options.width options) "width"
    ∧ attributes' !! "height" = kept (Options.height options) "height"
    ∧ attributes' !! "font-size" = kept (Options.fontSize options) "font-size"
    ∧ ∀ name, name ∉ ["width"; "height"; "x"; "y"; "font-size"] →
        attributes' !! name = attributes !! name.
Proof.
  unfold withOptions.
  destruct (Options.width options) as [w|]; [destruct (JS.truthy w)|];
    (destruct (Options.height options) as [h|]; [destruct (JS.truthy h)|]);
    destruct (Options.x options) as [x_|], (Options.y options) as [y_|];
    (destruct (Options.fontSize options) as [f|]; [destruct (JS.truthy f)|]);
    simpl; eexists; (split; [reflexivity|]);
    repeat split; try (by simplify_map_eq);
    intros name Hname;
    repeat (rewrite lookup_insert_ne;
            [|intros <-; apply Hname; repeat constructor]); done.
Qed.

Lemma targetRectangle_element `{Runtime} (tag : string)
    (attributes : gmap string string) (children : list Node)
    (options : PDFPageDrawSVGElementOptions) :
  is_Some (targetRectangle (ELEMENT_NODE tag attributes children) options).
Proof.
  unfold targetRectangle, optionOrAttribute.
  destruct (Options.x options), (Options.y options), (Options.width options),
    (Options.height options); simpl; by eexists.
Qed.

Lemma stoppingTag_unknown (tag : string) :
  stoppingTag tag = true → (tag ∉ knownTags) ∧ tag ∈ JS.Object_prototype.
Proof.
  unfold stoppingTag, JS.inherited_call_throws. intros Hin%bool_decide_eq_true.
  each_member; (split; [|unfold JS.Object_prototype; repeat constructor]);
    intros Hknown; unfold knownTags in Hknown;
    repeat (apply elem_of_cons in Hknown as [Hknown|Hknown]; [discriminate|]);
    by apply elem_of_nil in Hknown.
Qed.

Section Dispatched.
Context `{Geometry} `{Runtime} (svgRect : Rectangle) (page : PDFPage)
  (options : PDFPageDrawSVGElementOptions).

Lemma dispatch_reached (elements : list SVGElement) :
  started (dispatch (runnersToPage svgRect page options) elements)
  = omap (runnerOutcome svgRect page options) (reached elements)
  ∧ completed (dispatch (runnersToPage svgRect page options) elements)
    = forallb (λ elt, negb (stoppingTag (tagName elt))) elements.
Proof.
  induction elements as [|elt elements [IHstarted IHcompleted]]; [done|].
  cbn [dispatch reached forallb]. unfold JS.get.
  pose proof (runnersToPage_known svgRect page options (tagName elt)) as Hknown.
  assert (runnerOutcome svgRect page options elt
          = (λ runner, runner elt) <$> runnersToPage svgRect page options (tagName elt))
    as Houtcome by done.
  destruct (stoppingTag (tagName elt)) eqn:Hstop; cbn [omap list_omap negb andb].
  - apply stoppingTag_unknown in Hstop as Hunknown. destruct Hunknown as [Hno Hproto].
    destruct (runnersToPage svgRect page options (tagName elt)) as [runner|].
    { exfalso. apply Hno, Hknown. by eexists. }
    rewrite bool_decide_eq_true_2 by done.
    unfold stoppingTag in Hstop. by rewrite Hstop.
  - rewrite Houtcome.
    destruct (runnersToPage svgRect page options (tagName elt)) as [runner|];
      cbn [fmap option_fmap option_map started completed].
    + by rewrite IHstarted, IHcompleted.
    + unfold stoppingTag in Hstop.
      destruct (bool_decide (tagName elt ∈ JS.Object_prototype));
        simpl; rewrite ?Hstop; by rewrite IHstarted, IHcompleted.
Qed.

Lemma reached_bound (elements : list SVGElement) :
  (length (omap (runnerOutcome svgRect page options) (reached elements) ≫= callsOf)
   ≤ length (omap (runnerOutcome svgRect page options) (reached elements)))%nat
  ∧ (length (omap (runnerOutcome svgRect page options) (reached elements))
     ≤ length (filter (λ tag, tag ∈ knownTags) (tagName <$> elements)))%nat.
Proof.
  induction elements as [|elt elements [IHcalls IHstarted]]; [simpl; lia|].
  cbn [reached]. destruct (stoppingTag (tagName elt)); [simpl; lia|].
  rewrite fmap_cons, filter_cons. cbn [omap list_omap].
  assert (runnerOutcome svgRect page options elt
          = (λ runner, runner elt) <$> runnersToPage svgRect page options (tagName elt))
    as -> by done.
  pose proof (runnersToPage_known svgRect page options (tagName elt)) as Hknown.
  pose proof (runner_calls svgRect page options (tagName elt)) as Hcalls.
  destruct (runnersToPage svgRect page options (tagName elt)) as [runner|];
    cbn [fmap option_fmap option_map].
  - rewrite decide_True by (apply Hknown; by eexists).
    specialize (Hcalls runner elt eq_refl).
    rewrite bind_cons, length_app. simpl. lia.
  - rewrite decide_False; [lia|]. intros [? ?]%Hknown. done.
Qed.

End Dispatched.

(** X27. [drawSvg] on markup whose root is an element.  It goes through the
    drawables the tree walker found, in document order, up to the first one
    whose tag is [__proto__], [__defineGetter__] or [__defineSetter__],
    where it stops with a [TypeError]; it starts the runner of each
    drawable whose tag is one of the seven the dispatcher knows, with the
    rectangle the options and the root give, and passes over every other
    one.  It runs to its end exactly when no drawable has one of the three
    tags.  So it starts no more runners, and the runners make no more calls
    on the page, than there are drawables with one of the seven tags; and
    the console holds what the resolution of the attributes wrote, nothing
    more. *)
Theorem drawSvg_outcomes `{Geometry} `{Runtime} (page : PDFPage) (tag : string)
    (attributes : gmap string string) (children : list Node)
    (options : PDFPageDrawSVGElementOptions) :
  let firstChild := ELEMENT_NODE tag attributes children in
  let size_ := getSize page in
  let drawn := drawSvg page firstChild options in
  let drawable := filter (λ tag, tag ∈ knownTags) (leafTags firstChild) in
  ∃ svgRect elements,
    targetRectangle firstChild options = Some svgRect
    ∧ parse firstChild options size_ (defaultConverter (height size_))
      = Some (drawn.1, elements)
    ∧ tagName <$> elements = leafTags firstChild
    ∧ started drawn.2 = omap (runnerOutcome svgRect page options) (reached elements)
    ∧ (completed drawn.2 = true
       ↔ ∀ tag, tag ∈ leafTags firstChild → stoppingTag tag = false)
    ∧ (length (started drawn.2) ≤ length drawable)%nat
    ∧ (length (started drawn.2 ≫= callsOf) ≤ length drawable)%nat.
Proof.
  cbv zeta.
  set (firstChild := ELEMENT_NODE tag attributes children).
  set (size_ := getSize page).
  destruct (targetRectangle_element tag attributes children options)
    as [svgRect Hrect].
  destruct (withOptions_root tag attributes children options size_)
    as [attributes' Hroot].
  fold firstChild in Hrect, Hroot.
  pose proof (parseHTMLNode_tags (ELEMENT_NODE tag attributes' children)
                (pageAttributes (width size_) (height size_))
                (defaultConverter (height size_))) as Htags.
  change (leafTags (ELEMENT_NODE tag attributes' children))
    with (leafTags firstChild) in Htags.
  assert (parse firstChild options size_ (defaultConverter (height size_))
          = Some (parseHTMLNode (ELEMENT_NODE tag attributes' children)
                    (pageAttributes (width size_) (height size_))
                    (defaultConverter (height size_)))) as Hparse.
  { unfold parse. by rewrite Hroot. }
  destruct (parseHTMLNode (ELEMENT_NODE tag attributes' children) _ _)
    as [console elements] eqn:Hwalk. simpl in Htags.
  assert (drawSvg page firstChild options
          = (console, dispatch (runnersToPage svgRect page options) elements))
    as ->.
  { unfold drawSvg. fold size_. rewrite Hrect, Hparse.
    unfold bind, ret. by rewrite app_nil_r. }
  destruct (dispatch_reached svgRect page options elements) as [Hstarted Hcompleted].
  destruct (reached_bound svgRect page options elements) as [Hcalls Hbound].
  exists svgRect, elements. simpl.
  split; [done|]. split; [done|]. split; [done|]. split; [exact Hstarted|].
  rewrite Hstarted, Hcompleted, <- Htags.
  split; [|split; [done|lia]].
  rewrite forallb_forall. setoid_rewrite negb_true_iff.
  split.
  - intros Hall t (elt & -> & Hin)%list_elem_of_fmap. apply Hall.
    by apply list_elem_of_In.
  - intros Hall elt Hin%list_elem_of_In. apply Hall. by apply list_elem_of_fmap_2.
Qed.

(** Tags that are members of [Object.prototype], and an image without a
    source.  The element [constructor] calls the inherited constructor,
    which draws nothing; the rectangle is drawn; the promise of the image
    is rejected by [embedPng]; at [__proto__] the call throws, and the
    rectangle after it is not reached. *)
Example drawSvg_inherited_members :
  drawSvg (H := sampleGeometry) (H0 := sampleRuntime) samplePage
    (ELEMENT_NODE "svg" ∅
       [ELEMENT_NODE "constructor" ∅ [];
        ELEMENT_NODE "rect"
          (list_to_map [("width", "10"); ("height", "10"); ("fill", "red")]) [];
        ELEMENT_NODE "image" ∅ [];
        ELEMENT_NODE "__proto__" ∅ [];
        ELEMENT_NODE "rect"
          (list_to_map [("width", "20"); ("height", "20"); ("fill", "blue")]) []])
    (placedAt 0 0 100 100)
  = ([],
     {| completed := false;
        started :=
          [Done
             [drawRectangle
                {| DrawRectangle.x := Some 0; DrawRectangle.y := 0;
                   DrawRectangle.width := 10; DrawRectangle.height := -10;
                   DrawRectangle.borderColor := None;
                   DrawRectangle.borderWidth := None;
                   DrawRectangle.borderOpacity := None;
                   DrawRectangle.borderLineCap := None;
                   DrawRectangle.color := Some (rgb 1 0 0);
                   DrawRectangle.opacity := None;
                   DrawRectangle.xSkew := None; DrawRectangle.ySkew := None;
                   DrawRectangle.rotate := None |}];
           EmbedError] |}).
Proof. vm_compute. reflexivity. Qed.

(** Markup whose root is a text: [drawSvg] ends in a [TypeError] before
    anything is resolved or drawn, whatever the options are. *)
Example drawSvg_text_root :
  drawSvg (H := sampleGeometry) (H0 := sampleRuntime) samplePage
    (TEXT_NODE "svg") (placedAt 0 0 100 100)
  = ([], {| completed := false; started := [] |}).
Proof. vm_compute. reflexivity. Qed.

(** ** Shorthands and defaults *)

(** X28. The one-axis shorthands act on both axes: [scaleX] with a factor
    multiplies the other coordinate by 0, and so does [scaleY], for points
    and for sizes alike, while [translateX] and [translateY] add 0 to the
    other coordinate. *)
Theorem transform_one_axis `{Runtime} (converter : SVGSizeConverter)
    (v a b : float) :
  point (transform converter "scaleX" [v]).2 a b = point converter (a * v) (b * 0)
  ∧ size (transform converter "scaleX" [v]).2 a b = size converter (a * v) (b * 0)
  ∧ point (transform converter "scaleY" [v]).2 a b = point converter (a * 0) (b * v)
  ∧ size (transform converter "scaleY" [v]).2 a b = size converter (a * 0) (b * v)
  ∧ point (transform converter "translateX" [v]).2 a b = point converter (a + v) (b + 0)
  ∧ point (transform converter "translateY" [v]).2 a b = point converter (a + 0) (b + v).
Proof. by repeat split. Qed.

(** X29. In path data a [h], [H], [v] or [V] command whose length is zero,
    or cannot be read, is rewritten with the length 1: the command is
    written as the image of 1 under the converter. *)
Theorem rewriteVH_zero_is_one `{Runtime} (converter : SVGSizeConverter)
    (xOrigin yOrigin : float) (elt : string) :
  let letter := charAt0 elt in
  truthyNum (parseFloatValue (Some (trim (slice1 elt))) 1) = false →
  rewriteVH converter xOrigin yOrigin elt
  = if String.eqb letter (toLowerCase letter) then
      if String.eqb letter "h"
      then "h" +:+ numberToString (width (size converter 1 1))
      else "v" +:+ numberToString (height (size converter 1 1))
    else
      if String.eqb letter "H"
      then "H" +:+ numberToString (x (point converter 1 1) - xOrigin)
      else "V" +:+ numberToString (y (point converter 1 1) - yOrigin).
Proof.
  intros letter Hzero. unfold rewriteVH, JS.or_num. fold letter.
  destruct (parseFloatValue _ 1) as [v|]; [|done].
  simpl in Hzero. by rewrite Hzero.
Qed.

Lemma rewriteVH_zero_is_one_witness :
  rewriteVH (H := sampleRuntime) (defaultConverter 100) 0 100 "h0" = "h1".
Proof.
  rewrite (rewriteVH_zero_is_one (H := sampleRuntime)); vm_compute; reflexivity.
Defined.

Lemma foldl_appends {S C T} (f : S * list T → C → S * list T) :
  (∀ state c, ∃ written, (f state c).2 = state.2 ++ written) →
  ∀ l state, ∃ written, (foldl f state l).2 = state.2 ++ written.
Proof.
  intros Hstep l. induction l as [|c l IH]; intros state; simpl.
  - exists []. by rewrite app_nil_r.
  - destruct (Hstep state c) as [first Hfirst].
    destruct (IH (f state c)) as [others Hothers].
    exists (first ++ others). by rewrite Hothers, Hfirst, app_assoc.
Qed.

Lemma rewriteCommands_fold_app `{Geometry} `{Runtime}
    (svgRect : Rectangle) (basePoint : Point) (commands : list string)
    (state : Point * list string) :
  ∃ written,
    (foldl
       (λ '(currentPoint, out) command,
          match firstLetter command, numberRuns command with
          | Some letter, Some runs =>
              if JS.truthyStr letter then
                let params := parseFloat <$> filter (λ m, m ≠ "") runs in
                let result := handlePath svgRect basePoint currentPoint letter params in
                (step_point result, out ++ [step_command result])
              else (currentPoint, out ++ [command])
          | _, _ => (currentPoint, out ++ [command])
          end)
       state commands).2
    = state.2 ++ written.
Proof.
  apply foldl_appends. intros [point_ out] command.
  destruct (firstLetter command) as [letter|], (numberRuns command) as [runs|];
    try destruct (JS.truthyStr letter); simpl; by eexists.
Qed.

(** X30. The path is rewritten from left to right: what is written for the
    first commands of a path does not depend on the commands after them, so
    the text of a path starts with the text of each of its prefixes. *)
Theorem rewriteCommands_prefix `{Geometry} `{Runtime}
    (svgRect : Rectangle) (basePoint : Point) (commands more : list string) :
  take (length commands) (rewriteCommands svgRect basePoint (commands ++ more))
  = rewriteCommands svgRect basePoint commands.
Proof.
  unfold rewriteCommands. rewrite foldl_app.
  match goal with
  | |- context [foldl ?f ?st more] =>
      destruct (rewriteCommands_fold_app svgRect basePoint more st) as [written Hwritten]
  end.
  etrans; [apply (f_equal (take (length commands))); exact Hwritten|].
  apply take_app_length'. symmetry.
  etrans; [apply rewriteCommands_fold_length|]. done.
Qed.
